(** * Shipment Presence Checker: identifier extraction and reconciliation

    A shallow embedding of [rieck_shipments_check.py]: the two identifier
    extractors, the three source readers and the body of the [if run:] block,
    with the Streamlit calls of that block written in a small writer/stop
    monad.  Python strings are sequences of Unicode code points. *)

From Stdlib Require Import ZArith NArith Ascii String List Lia.
From Stdlib Require DecimalNat.
From stdpp Require Import base decidable option list gmap sets sorting.
From stdpp Require Import fin_sets.

#[local] Set Warnings "-clear-no-such-hyp".

Local Open Scope N_scope.
Local Open Scope list_scope.

(** ** Python [str] *)

(** A character is its code point; a [str] is an immutable sequence of them. *)
Definition char : Type := N.
Definition str : Type := list char.

(** ASCII literals of the source, as code points. *)
Definition lit (s : string) : str :=
  List.map N_of_ascii (list_ascii_of_string s).

(** [len(s) == n]. *)
Definition len_is {A} (s : list A) (n : nat) : bool := Nat.eqb (length s) n.

(** [s.rfind(c)]: index of the last occurrence of [c], or [-1]. *)
Fixpoint rfind (c : char) (s : str) : Z :=
  match s with
  | [] => (-1)%Z
  | x :: s' =>
      let r := rfind c s' in
      if (0 <=? r)%Z then (r + 1)%Z
      else if x =? c then 0%Z else (-1)%Z
  end.

(** [s[i:]] for [i >= 0]. *)
Definition slice_from (i : Z) (s : str) : str := drop (Z.to_nat i) s.

(** Python compares strings code point by code point; a proper prefix is
    smaller.  [str_leb a b] is [a <= b]. *)
Fixpoint str_leb (a b : str) : bool :=
  match a, b with
  | [], _ => true
  | _ :: _, [] => false
  | x :: a', y :: b' =>
      if x <? y then true else if x =? y then str_leb a' b' else false
  end.

Definition str_le (a b : str) : Prop := str_leb a b = true.

Global Instance str_le_dec a b : Decision (str_le a b).
Proof. unfold str_le. apply _. Defined.

(** Strictly ascending: [a < b] on strings. *)
Definition str_lt (a b : str) : Prop := str_le a b /\ a <> b.

(** ** [os.path.basename] (posixpath) *)

(** [os.path] on a POSIX system, where the separator is the slash.  (On
    Windows [os.path] is [ntpath], which also splits at a backslash and
    after a drive.) *)
Module posixpath.

Definition sep : char := 47.

(** [i = p.rfind(sep) + 1; return p[i:]] *)
Definition basename (p : str) : str :=
  let i := (rfind sep p + 1)%Z in
  slice_from i p.

End posixpath.

(** ** The two regular expressions of the source *)

(** The part of the interpreter's Unicode database the program consults. *)
Class UnicodeData := {
  (** general category Nd on the code points from 128 on; on ASCII the
      decimal digits are [0-9] in every version of the database *)
  Nd : char -> bool;
  (** [str.lower] *)
  lower : str -> str
}.

Section Regex.

Context `{UnicodeData}.

(** The class [\d] of a [str] pattern. *)
Definition isdecimal (c : char) : bool :=
  if c <? 128 then (48 <=? c) && (c <=? 57) else Nd c.

(** [\d{n}] at the head of [s]: the matched text, if any. *)
Fixpoint match_digits (n : nat) (s : str) : option str :=
  match n with
  | O => Some []
  | S n' =>
      match s with
      | c :: s' =>
          if isdecimal c
          then match match_digits n' s' with
               | Some g => Some (c :: g)
               | None => None
               end
          else None
      | [] => None
      end
  end.

(** [re.match(r"^(\d{8})", s)]: group 1 of the match object, or [None]. *)
Definition re_match_8_digits (s : str) : option str := match_digits 8 s.

(** [re.sub(r"\D", "", s)]: every character outside [\d] is deleted. *)
Definition re_sub_nondigits (s : str) : str := List.filter isdecimal s.

(** Number of [\d] characters at the head of [s] (the maximal run). *)
Fixpoint digit_run (s : str) : nat :=
  match s with
  | c :: s' => if isdecimal c then S (digit_run s') else O
  | [] => O
  end.

End Regex.

(** [s.endswith(suffix)] *)
Definition endswith (s suffix : str) : bool :=
  bool_decide (drop (length s - length suffix)%nat s = suffix).

(** ** Decimal rendering: [str(n)] and the format [{:,}] *)

Fixpoint uint_digits (u : Decimal.uint) : str :=
  match u with
  | Decimal.Nil => []
  | Decimal.D0 u => 48 :: uint_digits u
  | Decimal.D1 u => 49 :: uint_digits u
  | Decimal.D2 u => 50 :: uint_digits u
  | Decimal.D3 u => 51 :: uint_digits u
  | Decimal.D4 u => 52 :: uint_digits u
  | Decimal.D5 u => 53 :: uint_digits u
  | Decimal.D6 u => 54 :: uint_digits u
  | Decimal.D7 u => 55 :: uint_digits u
  | Decimal.D8 u => 56 :: uint_digits u
  | Decimal.D9 u => 57 :: uint_digits u
  end.

(** [str(n)] for a natural number. *)
Definition str_of_nat (n : nat) : str := uint_digits (Nat.to_uint n).

(** [str(z)] for an [int]: a minus sign before the digits of a negative
    number. *)
Definition str_of_int (z : Z) : str :=
  match Z.to_int z with
  | Decimal.Pos u => uint_digits u
  | Decimal.Neg u => 45 :: uint_digits u
  end.

Definition comma : char := 44.

(** A comma after every third digit, counted from the least significant one:
    [group3] works on the reversed digit string. *)
Fixpoint group3 (r : str) : str :=
  match r with
  | a :: b :: c :: ((_ :: _) as rest) => a :: b :: c :: comma :: group3 rest
  | _ => r
  end.

(** [f"{n:,}"] *)
Definition format_thousands (n : nat) : str :=
  rev (group3 (rev (str_of_nat n))).

(** ** The pandas objects the program manipulates *)

Module pd.

(** A Python value as it can sit in a column. *)
Inductive obj :=
| PyNone
| NaN
| Str (s : str)
| Bool (b : bool)
| Int (z : Z).

(** [pd.isna(val)] on a scalar. *)
Definition isna (val : obj) : bool :=
  match val with
  | PyNone | NaN => true
  | _ => false
  end.

(** A one-dimensional labelled array: (index label, value) pairs. *)
Definition Series (A : Type) : Type := list (nat * A).

(** A column of a frame with its dtype: [object] or [bool]. *)
Inductive column :=
| ObjectCol (values : list obj)
| BoolCol (values : list bool).

(** A frame: the row labels and the named columns, in order. *)
Record DataFrame := mkDataFrame {
  index : list nat;
  data : list (str * column)
}.

(** The values of a column as Python objects. *)
Definition col_objects (c : column) : list obj :=
  match c with
  | ObjectCol l => l
  | BoolCol l => List.map Bool l
  end.

(** [df.columns] *)
Definition columns (df : DataFrame) : list str := List.map fst (data df).

(** [df[name]]: the column, or [None] for a [KeyError]. *)
Definition getitem (df : DataFrame) (name : str) : option column :=
  match List.find (fun nc => bool_decide (fst nc = name)) (data df) with
  | Some nc => Some (snd nc)
  | None => None
  end.

(** The column as a [Series] carrying the frame's labels. *)
Definition to_series (df : DataFrame) (c : column) : Series obj :=
  combine (index df) (col_objects c).

(** [s.values] *)
Definition values {A} (s : Series A) : list A := List.map snd s.

(** [s.map(f)] ([na_action=None]: [f] is called on every element). *)
Definition map {A B} (f : A -> B) (s : Series A) : Series B :=
  List.map (fun iv => (fst iv, f (snd iv))) s.

(** [s.isna()] on the result of the cleaning map, where a missing value
    is [None]. *)
Definition series_isna {A} (s : Series (option A)) : Series bool :=
  map (fun v => match v with None => true | Some _ => false end) s.

(** [s.dropna()] *)
Fixpoint dropna {A} (s : Series (option A)) : Series A :=
  match s with
  | [] => []
  | (i, Some v) :: s' => (i, v) :: dropna s'
  | (_, None) :: s' => dropna s'
  end.

(** [s.drop_duplicates()] ([keep="first"]): [seen] holds the values met so
    far. *)
Fixpoint drop_duplicates_seen {A} `{EqDecision A}
    (seen : list A) (s : Series A) : Series A :=
  match s with
  | [] => []
  | (i, v) :: s' =>
      if decide (v ∈ seen) then drop_duplicates_seen seen s'
      else (i, v) :: drop_duplicates_seen (v :: seen) s'
  end.

Definition drop_duplicates {A} `{EqDecision A} (s : Series A) : Series A :=
  drop_duplicates_seen [] s.

(** [s.astype(str)] on a series of strings. *)
Definition astype_str (s : Series str) : Series str := s.

(** [s.empty] *)
Definition empty {A} (s : Series A) : bool :=
  match s with [] => true | _ :: _ => false end.

(** [s.isin(values)] for a Python set of strings. *)
Definition isin (s : Series str) (vals : gset str) : Series bool :=
  map (fun v => bool_decide (v ∈ vals)) s.

(** Selection of the positions where the mask is [True]. *)
Fixpoint compress {A} (mask : list bool) (l : list A) : list A :=
  match mask, l with
  | b :: mask', x :: l' =>
      if b then x :: compress mask' l' else compress mask' l'
  | _, _ => []
  end.

Definition compress_col (mask : list bool) (c : column) : column :=
  match c with
  | ObjectCol l => ObjectCol (compress mask l)
  | BoolCol l => BoolCol (compress mask l)
  end.

(** [df[mask]] for a boolean mask over the rows (the masks of the program
    are computed from a column of the frame they select from). *)
Definition bool_index (df : DataFrame) (mask : list bool) : DataFrame :=
  {| index := compress mask (index df);
     data := List.map (fun nc => (fst nc, compress_col mask (snd nc))) (data df) |}.

(** [~s]: defined on a [bool] column, a [TypeError] otherwise. *)
Definition invert (c : column) : option (list bool) :=
  match c with
  | BoolCol m => Some (List.map negb m)
  | ObjectCol _ => None
  end.

(** [df[[name]]]: the sub-frame of the columns called [name]. *)
Definition select (df : DataFrame) (name : str) : DataFrame :=
  {| index := index df;
     data := List.filter (fun nc => bool_decide (fst nc = name)) (data df) |}.

(** [df.drop(columns=[name])] *)
Definition drop_columns (df : DataFrame) (name : str) : DataFrame :=
  {| index := index df;
     data := List.filter (fun nc => negb (bool_decide (fst nc = name))) (data df) |}.

(** [df.reset_index(drop=True)]: the labels become [0 .. n-1]. *)
Definition reset_index (df : DataFrame) : DataFrame :=
  {| index := seq 0 (length (index df)); data := data df |}.

(** [pd.DataFrame({n1: v1, ...})] from arrays of one length: a fresh
    [RangeIndex] over the rows. *)
Definition from_dict (d : list (str * column)) : DataFrame :=
  {| index := seq 0 (match d with
                     | [] => 0
                     | (_, c) :: _ => length (col_objects c)
                     end);
     data := d |}.

(** [df.empty] *)
Definition df_empty (df : DataFrame) : bool :=
  match index df, data df with
  | _ :: _, _ :: _ => false
  | _, _ => true
  end.

(** One sheet written by [df.to_excel(writer, index=False, sheet_name=..)]:
    the header row and the cells below it, column by column. *)
Record sheet := mkSheet {
  sheet_name : str;
  table : list (str * column)
}.

Definition to_excel (df : DataFrame) (name : str) : sheet :=
  {| sheet_name := name; table := data df |}.

End pd.

(** ** Streamlit: what a script run renders, and how it ends *)

Module st.

(** The content of a generated [.xlsx] file: its sheets, in order. *)
Definition xlsx : Type := list pd.sheet.

(** The elements the run block puts on the page. *)
Inductive element :=
| Error (body : str)
| Warning (body : str)
| Success (body : str)
| Metric (label value : str)
| Subheader (body : str)
| Dataframe (df : pd.DataFrame)
| DownloadButton (label : str) (data : xlsx) (file_name mime : str).

(** A run either reaches the end of the script, is ended by [st.stop()],
    or dies with an uncaught Python exception. *)
Inductive outcome (A : Type) :=
| Returned (a : A)
| Stopped
| Raised (exc : str).
Global Arguments Returned {A} a.
Global Arguments Stopped {A}.
Global Arguments Raised {A} exc.

(** Elements rendered, in order, and the outcome. *)
Definition script (A : Type) : Type := (list element * outcome A)%type.

Global Instance script_ret : MRet script := fun A a => ([], Returned a).

Global Instance script_bind : MBind script := fun A B k m =>
  match m with
  | (w, Returned a) => let (w', r) := k a in (w ++ w', r)
  | (w, Stopped) => (w, Stopped)
  | (w, Raised e) => (w, Raised e)
  end.

Definition render (e : element) : script unit := ([e], Returned tt).

Definition error (body : str) : script unit := render (Error body).
Definition warning (body : str) : script unit := render (Warning body).
Definition success (body : str) : script unit := render (Success body).
Definition metric (label value : str) : script unit := render (Metric label value).
Definition subheader (body : str) : script unit := render (Subheader body).
Definition dataframe (df : pd.DataFrame) : script unit := render (Dataframe df).
Definition download_button (label : str) (data : xlsx) (file_name mime : str)
  : script unit := render (DownloadButton label data file_name mime).

(** [st.stop()] *)
Definition stop {A} : script A := ([], Stopped).

(** An operation that raises when it has no result. *)
Definition or_raise {A} (exc : str) (o : option A) : script A :=
  match o with
  | Some a => ([], Returned a)
  | None => ([], Raised exc)
  end.

Definition elements {A} (m : script A) : list element := fst m.
Definition result {A} (m : script A) : outcome A := snd m.

Definition is_download (e : element) : bool :=
  match e with DownloadButton _ _ _ _ => true | _ => false end.

End st.

(** ** Uploads *)

Inductive engine := xlrd | openpyxl.

(** An entry of [ZipFile.infolist()]. *)
Record ZipInfo := mkZipInfo {
  filename : str;
  is_dir : bool
}.

(** A Streamlit [UploadedFile]: its name, and what the two parsers the
    program hands it to make of its bytes.  [read_excel e] stands for
    [pd.read_excel(f, dtype=str, engine=e)] and [infolist] for
    [zipfile.ZipFile(f).infolist()]; [inl] carries the text of the exception
    raised. *)
Record UploadedFile := mkUploadedFile {
  name : str;
  read_excel : engine -> str + pd.DataFrame;
  infolist : str + list ZipInfo
}.

(** ** The program *)

Definition SHIPMENT_NO : str := lit "Shipment No.".

Definition XLSX_MIME : str :=
  lit "application/vnd.openxmlformats-officedocument.spreadsheetml.sheet".

(** The down arrow of the two download labels: U+2B07 U+FE0F. *)
Definition DOWN_ARROW : str := [11015; 65039].

(** [str(val)] *)
Definition py_str (val : pd.obj) : str :=
  match val with
  | pd.PyNone => lit "None"
  | pd.NaN => lit "nan"
  | pd.Str s => s
  | pd.Bool true => lit "True"
  | pd.Bool false => lit "False"
  | pd.Int z => str_of_int z
  end.

(** Truth value of an [str | None] in [if ship:]. *)
Definition truthy (ship : option str) : bool :=
  match ship with
  | Some (_ :: _) => true
  | _ => false
  end.

Section Program.

Context `{UnicodeData}.

Definition extract_shipment_from_filename (filename : str) : option str :=
  let base := posixpath.basename filename in
  let m := re_match_8_digits base in
  match m with
  | Some group1 => Some group1
  | None => None
  end.

Definition clean_excel_shipment (val : pd.obj) : option str :=
  if pd.isna val then None
  else
    let digits := re_sub_nondigits (py_str val) in
    if len_is digits 8 then Some digits else None.

(** The body of the reader's [try] block: the frame pandas reads with
    the engine the file name selects, or the exception's text. *)
Definition read_workbook (uploaded_file : UploadedFile) : str + pd.DataFrame :=
  let name := lower (name uploaded_file) in
  if endswith name (lit ".xls")
  then read_excel uploaded_file xlrd
  else read_excel uploaded_file openpyxl.

Definition read_excel_shipment_column (uploaded_file : UploadedFile)
  : st.script (pd.Series str * pd.DataFrame) :=
  df ← match read_workbook uploaded_file with
       | inr df => mret df
       | inl e => st.error (lit "Failed to read Excel: " ++ e);; st.stop
       end;
  (if negb (bool_decide (SHIPMENT_NO ∈ pd.columns df))
   then st.error (lit "Excel must contain a column named **'Shipment No.'** (exact match).");;
        st.stop
   else mret tt);;
  col ← st.or_raise (lit "KeyError") (pd.getitem df SHIPMENT_NO);
  let series := pd.map clean_excel_shipment (pd.to_series df col) in
  let valid := pd.astype_str (pd.drop_duplicates (pd.dropna series)) in
  let invalid := pd.bool_index df (pd.values (pd.series_isna series)) in
  let invalid := if bool_decide (SHIPMENT_NO ∈ pd.columns invalid)
                 then pd.select invalid SHIPMENT_NO else invalid in
  mret (valid, invalid).

(** The loop body of both filename readers: [if ship: shipments.add(ship)]. *)
Definition add_if (shipments : gset str) (ship : option str) : gset str :=
  match ship with
  | Some s => if truthy ship then shipments ∪ {[ s ]} else shipments
  | None => shipments
  end.

Definition extract_from_uploaded_files (files : list UploadedFile) : gset str :=
  fold_left
    (fun shipments f =>
       let ship := extract_shipment_from_filename (name f) in
       add_if shipments ship)
    files ∅.

Definition extract_from_zip (uploaded_zip : UploadedFile) : st.script (gset str) :=
  match infolist uploaded_zip with
  | inr infos =>
      mret (fold_left
              (fun shipments info =>
                 if is_dir info then shipments
                 else
                   let base := posixpath.basename (filename info) in
                   let ship := extract_shipment_from_filename base in
                   add_if shipments ship)
              infos ∅)
  | inl e => st.error (lit "Failed to read ZIP: " ++ e);; st.stop
  end.

Definition df_to_xlsx_bytes (df : pd.DataFrame) (sheet_name file_name : str)
  : st.xlsx * str :=
  ([pd.to_excel df sheet_name], file_name).

(** [sorted(folder_set)] *)
Definition sorted (s : gset str) : list str := merge_sort str_le (elements s).

(** The values the block computes under [# Compare sets]. *)
Definition present_mask (valid_shipments : pd.Series str) (folder_set : gset str)
  : pd.Series bool := pd.isin valid_shipments folder_set.

Definition result_df (valid_shipments : pd.Series str) (folder_set : gset str)
  : pd.DataFrame :=
  pd.from_dict
    [ (SHIPMENT_NO, pd.ObjectCol (List.map pd.Str (pd.values valid_shipments)));
      (lit "Present", pd.BoolCol (pd.values (present_mask valid_shipments folder_set))) ].

Definition missing_df (valid_shipments : pd.Series str) (folder_set : gset str)
  : st.script pd.DataFrame :=
  let result_df := result_df valid_shipments folder_set in
  present ← st.or_raise (lit "KeyError") (pd.getitem result_df (lit "Present"));
  absent ← st.or_raise (lit "TypeError") (pd.invert present);
  mret (pd.reset_index (pd.drop_columns (pd.bool_index result_df absent) (lit "Present"))).

(** The run block from [# Compare sets] to its end. *)
Definition report (valid_shipments : pd.Series str) (invalid_rows : pd.DataFrame)
    (folder_shipments : gset str) (show_preview : bool) : st.script unit :=
  let folder_set := folder_shipments in
  let result_df := result_df valid_shipments folder_set in
  missing_df ← missing_df valid_shipments folder_set;
  st.success (lit "Done!");;
  st.metric (lit "Unique shipments in folder") (format_thousands (size folder_set));;
  st.metric (lit "Unique shipments in Excel") (format_thousands (length valid_shipments));;
  st.metric (lit "Missing shipments") (format_thousands (length (pd.index missing_df)));;
  (if show_preview then
     st.subheader (lit "Missing shipments (preview)");;
     st.dataframe missing_df;;
     if negb (pd.df_empty invalid_rows) then
       st.subheader (lit "Rows with invalid 'Shipment No.' (not exactly 8 digits after cleaning)");;
       st.dataframe invalid_rows
     else mret tt
   else mret tt);;
  let '(xlsx_bytes, fname) :=
    df_to_xlsx_bytes missing_df (lit "Missing") (lit "missing_shipments.xlsx") in
  st.download_button (DOWN_ARROW ++ lit " Download Missing Shipments (Excel)")
    xlsx_bytes fname XLSX_MIME;;
  let full_buf :=
    [ pd.to_excel result_df (lit "Summary");
      pd.to_excel
        (pd.from_dict [(lit "FolderShipments", pd.ObjectCol (List.map pd.Str (sorted folder_set)))])
        (lit "FolderSet") ] in
  st.download_button (DOWN_ARROW ++ lit " Download Full Summary (Excel)")
    full_buf (lit "shipment_presence_summary.xlsx") XLSX_MIME.

(** The block under [# Read processed files (filenames only)]. *)
Definition read_processed_files (uploaded_files : option (list UploadedFile))
    (uploaded_zip : option UploadedFile) : st.script (gset str) :=
  match uploaded_zip with
  | Some uploaded_zip => extract_from_zip uploaded_zip
  | None =>
      (* [uploaded_files or []] *)
      mret (extract_from_uploaded_files
              (match uploaded_files with
               | Some (f :: l) => f :: l
               | _ => []
               end))
  end.

(** The body of [if run:]. *)
Definition run_check (excel_file : UploadedFile)
    (uploaded_files : option (list UploadedFile)) (uploaded_zip : option UploadedFile)
    (show_preview : bool) : st.script unit :=
  '(valid_shipments, invalid_rows) ← read_excel_shipment_column excel_file;
  (if pd.empty valid_shipments
   then st.warning (lit "No valid 8-digit shipment numbers found in Excel after cleaning.");;
        st.stop
   else mret tt);;
  folder_shipments ← read_processed_files uploaded_files uploaded_zip;
  report valid_shipments invalid_rows folder_shipments show_preview.

End Program.

(** ** The widgets that feed the run block *)

(** The two options of the radio button. *)
Inductive mode := Upload_multiple_files | Upload_a_ZIP.

(** [uploaded_files] and [uploaded_zip] after the [if mode == ...] block:
    both start as [None], and only the uploader of the chosen mode is
    shown and read. *)
Definition uploads (m : mode) (multi_uploader : option (list UploadedFile))
    (zip_uploader : option UploadedFile)
  : option (list UploadedFile) * option UploadedFile :=
  match m with
  | Upload_multiple_files => (multi_uploader, None)
  | Upload_a_ZIP => (None, zip_uploader)
  end.

(** The [disabled=] argument of the Run button:
    [excel_file is None or ((uploaded_files is None or len(uploaded_files) == 0)
    and uploaded_zip is None)]. *)
Definition run_disabled (excel_file : option UploadedFile)
    (uploaded_files : option (list UploadedFile)) (uploaded_zip : option UploadedFile)
  : bool :=
  match excel_file with None => true | Some _ => false end
  || ((match uploaded_files with
       | None => true
       | Some files => Nat.eqb (length files) 0
       end)
      && match uploaded_zip with None => true | Some _ => false end).

(** ** Vocabulary of the statements *)

Section Vocabulary.

Context `{UnicodeData}.

(** An identifier: eight characters of the class [\d]. *)
Definition is_identifier (s : str) : Prop :=
  length s = 8%nat /\ Forall (fun c => isdecimal c = true) s.

(** The specification's words for the cell rule, "strip every non-digit
    character (anywhere in the string)": [stripped s d] says that [d] is
    [s] with each character outside [\d] taken out and each character of
    [\d] kept, in place. *)
Inductive stripped : str -> str -> Prop :=
| stripped_nil : stripped [] []
| stripped_keep c s d :
    isdecimal c = true -> stripped s d -> stripped (c :: s) (c :: d)
| stripped_drop c s d :
    isdecimal c = false -> stripped s d -> stripped (c :: s) d.

(** The source's [series], [valid] and [invalid] for a frame and its
    [Shipment No.] column. *)
Definition cleaned (df : pd.DataFrame) (col : pd.column) : pd.Series (option str) :=
  pd.map clean_excel_shipment (pd.to_series df col).

Definition valid_of (df : pd.DataFrame) (col : pd.column) : pd.Series str :=
  pd.astype_str (pd.drop_duplicates (pd.dropna (cleaned df col))).

Definition invalid_of (df : pd.DataFrame) (col : pd.column) : pd.DataFrame :=
  pd.select (pd.bool_index df (pd.values (pd.series_isna (cleaned df col)))) SHIPMENT_NO.

Definition MISSING_COLUMN : str :=
  lit "Excel must contain a column named **'Shipment No.'** (exact match).".

(** The identifiers a list of file names yields. *)
Definition identifiers_of (names : list str) : gset str :=
  list_to_set (omap extract_shipment_from_filename names).

(** The names the archive reader looks at: the base names of the entries
    that are not directories. *)
Definition entry_names (infos : list ZipInfo) : list str :=
  List.map (fun info => posixpath.basename (filename info))
           (List.filter (fun info => negb (is_dir info)) infos).

(** The expected identifiers that are not observed, in the order of the
    expected sequence. *)
Definition missing_of (valid_shipments : pd.Series str) (folder_set : gset str)
  : list str :=
  filter (fun x => x ∉ folder_set) (pd.values valid_shipments).

(** The frame of the missing identifiers: one column, labels from 0. *)
Definition missing_frame (valid_shipments : pd.Series str) (folder_set : gset str)
  : pd.DataFrame :=
  let missing := missing_of valid_shipments folder_set in
  {| pd.index := seq 0 (length missing);
     pd.data := [(SHIPMENT_NO, pd.ObjectCol (List.map pd.Str missing))] |}.

(** What the preview shows. *)
Definition preview_elements (show_preview : bool) (missing invalid_rows : pd.DataFrame)
  : list st.element :=
  if show_preview then
    st.Subheader (lit "Missing shipments (preview)") :: st.Dataframe missing ::
    (if negb (pd.df_empty invalid_rows) then
       [ st.Subheader (lit "Rows with invalid 'Shipment No.' (not exactly 8 digits after cleaning)");
         st.Dataframe invalid_rows ]
     else [])
  else [].

(** The content of the first download: the sheet [Missing]. *)
Definition missing_export (valid_shipments : pd.Series str) (folder_set : gset str)
  : st.xlsx :=
  [ {| pd.sheet_name := lit "Missing";
       pd.table := [(SHIPMENT_NO,
                     pd.ObjectCol (List.map pd.Str (missing_of valid_shipments folder_set)))] |} ].

(** The content of the second download: the sheets [Summary] and
    [FolderSet]. *)
Definition summary_export (valid_shipments : pd.Series str) (folder_set : gset str)
  : st.xlsx :=
  [ {| pd.sheet_name := lit "Summary";
       pd.table :=
         [ (SHIPMENT_NO, pd.ObjectCol (List.map pd.Str (pd.values valid_shipments)));
           (lit "Present",
            pd.BoolCol (List.map (fun v => bool_decide (v ∈ folder_set))
                                 (pd.values valid_shipments))) ] |};
    {| pd.sheet_name := lit "FolderSet";
       pd.table := [(lit "FolderShipments",
                     pd.ObjectCol (List.map pd.Str (sorted folder_set)))] |} ].

Definition report_elements (valid_shipments : pd.Series str) (invalid_rows : pd.DataFrame)
    (folder_set : gset str) (show_preview : bool) : list st.element :=
  [ st.Success (lit "Done!");
    st.Metric (lit "Unique shipments in folder") (format_thousands (size folder_set));
    st.Metric (lit "Unique shipments in Excel") (format_thousands (length valid_shipments));
    st.Metric (lit "Missing shipments")
      (format_thousands (length (missing_of valid_shipments folder_set))) ]
  ++ preview_elements show_preview (missing_frame valid_shipments folder_set) invalid_rows
  ++ [ st.DownloadButton (DOWN_ARROW ++ lit " Download Missing Shipments (Excel)")
         (missing_export valid_shipments folder_set)
         (lit "missing_shipments.xlsx") XLSX_MIME;
       st.DownloadButton (DOWN_ARROW ++ lit " Download Full Summary (Excel)")
         (summary_export valid_shipments folder_set)
         (lit "shipment_presence_summary.xlsx") XLSX_MIME ].

Definition NO_VALID : str :=
  lit "No valid 8-digit shipment numbers found in Excel after cleaning.".

(** The names the selected filename reader is given, when it can read
    its input: the uploaded files' names, or the archive's entry names. *)
Definition provided_names (uploaded_files : option (list UploadedFile))
    (uploaded_zip : option UploadedFile) : option (list str) :=
  match uploaded_zip with
  | Some z =>
      match infolist z with
      | inr infos => Some (entry_names infos)
      | inl _ => None
      end
  | None =>
      Some (List.map name (match uploaded_files with
                           | Some files => files
                           | None => []
                           end))
  end.

End Vocabulary.

(** ** Worked inputs *)

(** A database that knows ASCII only.  Every name and cell below is ASCII,
    where [\d] is [0-9] whatever the database. *)
Definition ascii_lower (c : char) : char :=
  if (65 <=? c) && (c <=? 90) then c + 32 else c.

Definition ascii_database : UnicodeData :=
  {| Nd := fun _ => false; lower := List.map ascii_lower |}.

(** An upload that is neither a workbook nor an archive. *)
Definition plain_file (n : string) : UploadedFile :=
  {| name := lit n;
     read_excel := fun _ => inl (lit "Unsupported format, or corrupt file");
     infolist := inl (lit "File is not a zip file") |}.

(** A workbook in the OOXML format: [openpyxl] reads it, [xlrd] does not. *)
Definition workbook (n : string) (df : pd.DataFrame) : UploadedFile :=
  {| name := lit n;
     read_excel := fun e => match e with
                            | openpyxl => inr df
                            | xlrd => inl (lit "Unsupported format, or corrupt file")
                            end;
     infolist := inl (lit "File is not a zip file") |}.

Definition archive (n : string) (infos : list ZipInfo) : UploadedFile :=
  {| name := lit n;
     read_excel := fun _ => inl (lit "Unsupported format, or corrupt file");
     infolist := inr infos |}.

Definition demo_frame : pd.DataFrame :=
  {| pd.index := seq 0 4;
     pd.data :=
       [ (lit "Shipment No.",
          pd.ObjectCol [ pd.Str (lit "12345678"); pd.Str (lit "1-2345678");
                         pd.Str (lit "123"); pd.NaN ]);
         (lit "Customer",
          pd.ObjectCol [ pd.Str (lit "A"); pd.Str (lit "B");
                         pd.Str (lit "C"); pd.Str (lit "D") ]) ] |}.

Definition demo_excel : UploadedFile := workbook "Posted Shipments.XLSX" demo_frame.

Definition demo_valid : pd.Series str := [(0%nat, lit "12345678")].

Definition demo_invalid : pd.DataFrame :=
  {| pd.index := [2%nat; 3%nat];
     pd.data := [(lit "Shipment No.", pd.ObjectCol [pd.Str (lit "123"); pd.NaN])] |}.

(** Headers that differ from [Shipment No.] in case or in the final period. *)
Definition other_headers_frame : pd.DataFrame :=
  {| pd.index := seq 0 1;
     pd.data :=
       [ (lit "shipment no.", pd.ObjectCol [pd.Str (lit "12345678")]);
         (lit "Shipment No", pd.ObjectCol [pd.Str (lit "12345678")]) ] |}.

(** A column in which no cell cleans to eight digits. *)
Definition rejected_frame : pd.DataFrame :=
  {| pd.index := seq 0 3;
     pd.data :=
       [ (lit "Shipment No.",
          pd.ObjectCol [pd.Str (lit "123"); pd.NaN; pd.Str (lit "123456789")]) ] |}.

Definition demo_infos : list ZipInfo :=
  [ {| filename := lit "10000000_a.pdf"; is_dir := false |};
    {| filename := lit "dir/"; is_dir := true |};
    {| filename := lit "dir/20000000_b.pdf"; is_dir := false |};
    {| filename := lit "bad.pdf"; is_dir := false |} ].

Definition demo_files : list UploadedFile :=
  [ plain_file "bad.pdf"; plain_file "20000000_b.pdf"; plain_file "10000000_a.pdf" ].

Definition unmatched_files : list UploadedFile :=
  [ plain_file "AB12345678.pdf"; plain_file "1234567X_a.pdf"; plain_file "readme.txt" ].

(** The files of [demo_files] in another order, one of them twice and with
    other contents. *)
Definition shuffled_files : list UploadedFile :=
  [ plain_file "10000000_a.pdf"; workbook "bad.pdf" demo_frame;
    plain_file "20000000_b.pdf"; plain_file "bad.pdf" ].

(** A column in which identifiers come back in later rows and are not in
    ascending order. *)
Definition repeats_frame : pd.DataFrame :=
  {| pd.index := seq 0 6;
     pd.data :=
       [ (lit "Shipment No.",
          pd.ObjectCol [ pd.Str (lit "22222222"); pd.Str (lit "11111111");
                         pd.Str (lit "2222-2222"); pd.Str (lit "x");
                         pd.Str (lit "33333333"); pd.Str (lit "11 11 11 11") ]) ] |}.

Definition repeats_valid : pd.Series str :=
  [(0%nat, lit "22222222"); (1%nat, lit "11111111"); (4%nat, lit "33333333")].

Definition repeats_invalid : pd.DataFrame :=
  {| pd.index := [3%nat];
     pd.data := [(lit "Shipment No.", pd.ObjectCol [pd.Str (lit "x")])] |}.

Definition two_expected : pd.Series str :=
  [(0%nat, lit "11111111"); (1%nat, lit "22222222")].


(** * Properties *)

(** ** Strings and paths *)

Lemma rfind_lower_bound c s : (-1 <= rfind c s)%Z.
Proof.
  induction s as [|x s IH]; simpl; [lia|].
  destruct (Z.leb_spec 0 (rfind c s)); [lia|].
  destruct (x =? c); lia.
Qed.

Lemma rfind_upper_bound c s : (rfind c s < Z.of_nat (length s))%Z.
Proof.
  induction s as [|x s IH]; simpl length; simpl rfind; [lia|].
  destruct (Z.leb_spec 0 (rfind c s)); [lia|].
  destruct (x =? c); lia.
Qed.

(** Without the separator, [rfind] finds nothing. *)
Lemma rfind_absent c s : c ∉ s -> rfind c s = (-1)%Z.
Proof.
  induction s as [|x s IH]; intros Hc; simpl; [done|].
  rewrite IH by set_solver.
  simpl. destruct (N.eqb_spec x c); [set_solver | done].
Qed.

(** What follows the last separator holds none. *)
Lemma rfind_suffix_free c s :
  c ∉ drop (Z.to_nat (rfind c s + 1)) s.
Proof.
  induction s as [|x s IH]; simpl rfind; [set_solver|].
  destruct (Z.leb_spec 0 (rfind c s)) as [Hr|Hr].
  - replace (Z.to_nat (rfind c s + 1 + 1)) with (S (Z.to_nat (rfind c s + 1))) by lia.
    exact IH.
  - assert (Hm : rfind c s = (-1)%Z) by (pose proof (rfind_lower_bound c s); lia).
    rewrite Hm in IH. simpl in IH.
    destruct (N.eqb_spec x c) as [->|Hx]; simpl.
    + exact IH.
    + apply not_elem_of_cons. split; [congruence | exact IH].
Qed.

Lemma basename_no_sep p : posixpath.sep ∉ posixpath.basename p.
Proof. apply rfind_suffix_free. Qed.

Lemma basename_of_plain p : posixpath.sep ∉ p -> posixpath.basename p = p.
Proof.
  intros Hp. unfold posixpath.basename, slice_from.
  by rewrite rfind_absent.
Qed.

(** The base name of a base name is itself. *)
Lemma basename_idempotent p :
  posixpath.basename (posixpath.basename p) = posixpath.basename p.
Proof. apply basename_of_plain, basename_no_sep. Qed.

(** The base name is a suffix of the path. *)
Lemma basename_suffix p : posixpath.basename p `suffix_of` p.
Proof. apply suffix_drop. Qed.

(** ** The extractors *)

Section Extractors.

Context `{UnicodeData}.

Lemma match_digits_Some n s g :
  match_digits n s = Some g <->
  g = take n s /\ length g = n /\ Forall (fun c => isdecimal c = true) g.
Proof.
  revert s g. induction n as [|n IH]; intros s g; simpl.
  - rewrite take_0. split.
    + intros [= <-]. auto.
    + intros (-> & _ & _). done.
  - destruct s as [|c s]; simpl.
    + split; [done|]. intros (-> & Hl & _). done.
    + destruct (isdecimal c) eqn:Hc.
      * destruct (match_digits n s) as [g'|] eqn:Hm.
        -- apply IH in Hm as (-> & Hl & Hd). split.
           ++ intros [= <-]. simpl. auto.
           ++ intros (-> & _ & _). done.
        -- split; [done|]. intros (-> & Hl & Hd).
           assert (match_digits n s = Some (take n s)) as Hs; [|congruence].
           apply IH. simpl in Hl. inversion Hd; subst. auto with lia.
      * split; [done|]. intros (-> & _ & Hd). inversion Hd; congruence.
Qed.

(** [\d{n}] matches exactly when the run of digits at the head has at
    least [n] characters. *)
Lemma match_digits_run n s : is_Some (match_digits n s) <-> (n <= digit_run s)%nat.
Proof.
  revert s. induction n as [|n IH]; intros s; simpl.
  - split; [lia | eauto].
  - destruct s as [|c s]; simpl.
    + split; [by intros [? ?] | lia].
    + destruct (isdecimal c).
      * rewrite <- Nat.succ_le_mono, <- IH.
        destruct (match_digits n s); split; intros [? ?]; by eauto.
      * split; [by intros [? ?] | lia].
Qed.

Lemma extract_unfold filename :
  extract_shipment_from_filename filename =
  match_digits 8 (posixpath.basename filename).
Proof.
  unfold extract_shipment_from_filename, re_match_8_digits.
  by destruct (match_digits _ _).
Qed.

Lemma extract_identifier filename ship :
  extract_shipment_from_filename filename = Some ship -> is_identifier ship.
Proof. rewrite extract_unfold, match_digits_Some. intros (_ & ? & ?). by split. Qed.

Lemma extract_truthy filename :
  truthy (extract_shipment_from_filename filename) =
  bool_decide (is_Some (extract_shipment_from_filename filename)).
Proof.
  destruct (extract_shipment_from_filename filename) as [ship|] eqn:He.
  - apply extract_identifier in He as [Hl _].
    destruct ship; [done|]. reflexivity.
  - reflexivity.
Qed.

(** The name is reduced to its base name before matching, so the
    extractor does not tell a name from its base name. *)
Lemma extract_basename filename :
  extract_shipment_from_filename (posixpath.basename filename) =
  extract_shipment_from_filename filename.
Proof. by rewrite !extract_unfold, basename_idempotent. Qed.

(** Deleting the non-digits of a digit string leaves it as it is. *)
Lemma re_sub_nondigits_digits s :
  Forall (fun c => isdecimal c = true) s -> re_sub_nondigits s = s.
Proof.
  unfold re_sub_nondigits. induction 1 as [|c s Hc _ IH]; simpl; [done|].
  by rewrite Hc, IH.
Qed.

Lemma re_sub_nondigits_all s :
  Forall (fun c => isdecimal c = true) (re_sub_nondigits s).
Proof.
  unfold re_sub_nondigits. apply Forall_forall. intros c Hc.
  apply list_elem_of_In, filter_In in Hc. tauto.
Qed.

Lemma clean_Some val digits :
  clean_excel_shipment val = Some digits <->
  pd.isna val = false /\ digits = re_sub_nondigits (py_str val) /\ length digits = 8%nat.
Proof.
  unfold clean_excel_shipment, len_is.
  destruct (pd.isna val); [split; [done | by intros [? _]]|].
  destruct (Nat.eqb_spec (length (re_sub_nondigits (py_str val))) 8) as [Hl|Hl].
  - split; [intros [= <-]; auto | intros (_ & -> & _); done].
  - split; [done | intros (_ & -> & ?); done].
Qed.

Lemma clean_identifier val digits :
  clean_excel_shipment val = Some digits -> is_identifier digits.
Proof.
  rewrite clean_Some. intros (_ & -> & Hl). split; [done|].
  apply re_sub_nondigits_all.
Qed.

(** An identifier in a cell is accepted as it is. *)
Lemma clean_of_identifier s :
  is_identifier s -> clean_excel_shipment (pd.Str s) = Some s.
Proof.
  intros [Hl Hd]. apply clean_Some. simpl.
  rewrite re_sub_nondigits_digits by done. auto.
Qed.

(** The string form of a missing value holds no digit. *)
Lemma isna_no_digits val :
  pd.isna val = true -> re_sub_nondigits (py_str val) = [].
Proof. destruct val; try discriminate; intros _; reflexivity. Qed.

End Extractors.

(** ** Series and frames *)

Lemma filter_bool_decide {A} (P : A -> Prop) `{forall x, Decision (P x)} (l : list A) :
  List.filter (fun x => bool_decide (P x)) l = filter P l.
Proof.
  induction l as [|x l IH]; simpl; [done|].
  rewrite filter_cons, IH.
  case_bool_decide; [by rewrite decide_True | by rewrite decide_False].
Qed.

Lemma compress_map_mask {A} (g : A -> bool) (l : list A) :
  pd.compress (List.map g l) l = List.filter g l.
Proof. induction l as [|x l IH]; simpl; [done|]. rewrite IH. by destruct (g x). Qed.

Lemma compress_fmap {A B} (f : A -> B) (mask : list bool) (l : list A) :
  pd.compress mask (List.map f l) = List.map f (pd.compress mask l).
Proof.
  revert l. induction mask as [|b mask IH]; intros [|x l]; simpl; try done.
  rewrite IH. by destruct b.
Qed.

Lemma compress_combine {A B} (mask : list bool) (a : list A) (b : list B) :
  combine (pd.compress mask a) (pd.compress mask b) = pd.compress mask (combine a b).
Proof.
  revert a b. induction mask as [|m mask IH]; intros [|x a] [|y b]; simpl; try done.
  - destruct m; simpl; [done | by destruct (pd.compress mask a)].
  - rewrite <- IH. by destruct m.
Qed.

(** A mask computed from one list selects as a filter in any list of the
    same rows. *)
Lemma compress_mask_of {A B} (g : A -> bool) (f : A -> B) (l : list A) :
  pd.compress (List.map g l) (List.map f l) = List.map f (List.filter g l).
Proof. by rewrite compress_fmap, compress_map_mask. Qed.

Lemma compress_mask_seq {A} (g : A -> bool) (l : list A) :
  length (pd.compress (List.map g l) (seq 0 (length l))) = length (List.filter g l).
Proof.
  generalize 0%nat. induction l as [|x l IH]; intros k; simpl; [done|].
  destruct (g x); simpl; by rewrite IH.
Qed.

Lemma col_objects_compress mask c :
  pd.col_objects (pd.compress_col mask c) = pd.compress mask (pd.col_objects c).
Proof. destruct c; simpl; [done|]. by rewrite compress_fmap. Qed.

Lemma getitem_is_Some df name :
  name ∈ pd.columns df <-> is_Some (pd.getitem df name).
Proof.
  unfold pd.columns, pd.getitem. induction (pd.data df) as [|[n c] d IH]; simpl.
  - split; [by intros ?%elem_of_nil | by intros [? ?]].
  - destruct (decide (n = name)) as [->|Hn].
    + rewrite bool_decide_eq_true_2 by done. split; [eauto | intros _; left].
    + rewrite bool_decide_eq_false_2 by done.
      rewrite <- IH, elem_of_cons. split; [intros [?|?]; [congruence | done] | by right].
Qed.

Lemma getitem_bool_index df mask name :
  pd.getitem (pd.bool_index df mask) name = pd.compress_col mask <$> pd.getitem df name.
Proof.
  unfold pd.getitem, pd.bool_index. simpl.
  induction (pd.data df) as [|[n c] d IH]; simpl; [done|].
  destruct (bool_decide (n = name)); [done | exact IH].
Qed.

Lemma getitem_select df name : pd.getitem (pd.select df name) name = pd.getitem df name.
Proof.
  unfold pd.getitem, pd.select. simpl.
  induction (pd.data df) as [|[n c] d IH]; simpl; [done|].
  destruct (bool_decide (n = name)) eqn:Hn; simpl; [by rewrite Hn | exact IH].
Qed.

Lemma columns_select df name :
  Forall (fun n => n = name) (pd.columns (pd.select df name)).
Proof.
  unfold pd.columns, pd.select. simpl. apply Forall_forall. intros n Hn.
  apply list_elem_of_In, in_map_iff in Hn as ([n' c] & <- & Hin).
  apply filter_In in Hin as [_ Hin]. by apply bool_decide_eq_true in Hin.
Qed.

Lemma columns_bool_index df mask : pd.columns (pd.bool_index df mask) = pd.columns df.
Proof.
  unfold pd.columns, pd.bool_index. simpl. rewrite List.map_map. done.
Qed.

Lemma values_map {A B} (f : A -> B) (s : pd.Series A) :
  pd.values (pd.map f s) = List.map f (pd.values s).
Proof. unfold pd.values, pd.map. by rewrite !List.map_map. Qed.

Lemma values_dropna {A} (s : pd.Series (option A)) :
  pd.values (pd.dropna s) = omap id (pd.values s).
Proof.
  induction s as [|[i [v|]] s IH]; simpl; [done | by f_equal | done].
Qed.

Lemma elem_of_values_dropna {A B} (f : A -> option B) (s : pd.Series A) (v : B) :
  v ∈ pd.values (pd.dropna (pd.map f s)) <-> exists a, a ∈ pd.values s /\ f a = Some v.
Proof.
  rewrite values_dropna, values_map, list_elem_of_omap. split.
  - intros (o & Ho & Hv). simpl in Hv. subst o.
    apply list_elem_of_In, in_map_iff in Ho as (a & Ha & Hin).
    exists a. split; [by apply list_elem_of_In | done].
  - intros (a & Hin & Ha). exists (Some v). split; [|done].
    apply list_elem_of_In, in_map_iff. exists a. split; [done | by apply list_elem_of_In].
Qed.

Section DropDuplicates.

Context {A : Type} `{EqDecision A}.
Implicit Types (s : pd.Series A) (seen : list A).

Lemma drop_duplicates_seen_elem seen s v :
  v ∈ pd.values (pd.drop_duplicates_seen seen s) <-> v ∈ pd.values s /\ v ∉ seen.
Proof.
  revert seen. induction s as [|[i x] s IH]; intros seen; simpl.
  - split; [by intros ?%elem_of_nil | by intros [?%elem_of_nil _]].
  - destruct (decide (x ∈ seen)) as [Hx|Hx]; simpl.
    + rewrite IH, elem_of_cons. naive_solver.
    + rewrite !elem_of_cons, IH, elem_of_cons. destruct (decide (v = x)); naive_solver.
Qed.

Lemma drop_duplicates_seen_NoDup seen s :
  NoDup (pd.values (pd.drop_duplicates_seen seen s)).
Proof.
  revert seen. induction s as [|[i x] s IH]; intros seen; simpl.
  - constructor.
  - destruct (decide (x ∈ seen)); simpl; [apply IH|].
    constructor; [|apply IH].
    rewrite drop_duplicates_seen_elem. intros [_ Hx]. apply Hx. left.
Qed.

(** Rows are only dropped: what is kept keeps its label and its place. *)
Lemma drop_duplicates_seen_sublist seen s :
  pd.drop_duplicates_seen seen s `sublist_of` s.
Proof.
  revert seen. induction s as [|[i x] s IH]; intros seen; simpl; [done|].
  destruct (decide (x ∈ seen)); [by apply sublist_cons | by apply sublist_skip].
Qed.

(** The row kept for a value is the first one that carries it. *)
Lemma drop_duplicates_seen_first seen s i v :
  (i, v) ∈ pd.drop_duplicates_seen seen s <->
  ((v ∉ seen) /\ exists s1 s2, s = s1 ++ (i, v) :: s2 /\ v ∉ pd.values s1).
Proof.
  revert seen. induction s as [|[j x] s IH]; intros seen; simpl.
  - split; [by intros ?%elem_of_nil|]. intros (_ & s1 & s2 & Hs & _).
    by destruct s1.
  - destruct (decide (x ∈ seen)) as [Hx|Hx].
    + rewrite IH. split.
      * intros (Hv & s1 & s2 & -> & Hs1). split; [done|].
        exists ((j, x) :: s1), s2. split; [done|]. simpl.
        apply not_elem_of_cons. split; [congruence | done].
      * intros (Hv & s1 & s2 & Hs & Hs1). split; [done|].
        destruct s1 as [|p s1]; simpl in *.
        -- congruence.
        -- injection Hs as <- ->. exists s1, s2. split; [done|].
           by apply not_elem_of_cons in Hs1 as [_ ?].
    + rewrite elem_of_cons, IH. split.
      * intros [[= -> ->]|(Hv & s1 & s2 & -> & Hs1)].
        -- split; [done|]. exists [], s. split; [done | apply not_elem_of_nil].
        -- apply not_elem_of_cons in Hv as [Hvx Hv]. split; [done|].
           exists ((j, x) :: s1), s2. split; [done|]. simpl.
           apply not_elem_of_cons. split; [done | done].
      * intros (Hv & s1 & s2 & Hs & Hs1).
        destruct s1 as [|p s1]; simpl in *.
        -- injection Hs as -> -> ->. by left.
        -- injection Hs as <- ->. apply not_elem_of_cons in Hs1 as [Hvx Hs1].
           right. split; [apply not_elem_of_cons; by split|].
           exists s1, s2. by split.
Qed.

End DropDuplicates.

(** ** The script monad *)

Section Script.

Context {A B : Type}.
Implicit Types (k : A -> st.script B) (w : list st.element).

Lemma bind_returned w a k :
  (w, st.Returned a) ≫= k = (w ++ st.elements (k a), st.result (k a)).
Proof. unfold mbind, st.script_bind. by destruct (k a). Qed.

Lemma bind_ret a k : mret a ≫= k = k a.
Proof. unfold mret, st.script_ret. rewrite bind_returned. by destruct (k a). Qed.

Lemma bind_stopped w k : (w, st.Stopped) ≫= k = (w, st.Stopped).
Proof. reflexivity. Qed.

Lemma bind_raised w e k : (w, st.Raised e) ≫= k = (w, st.Raised e).
Proof. reflexivity. Qed.

End Script.

Lemma bind_render {B} e (k : unit -> st.script B) :
  st.render e ≫= k = (e :: st.elements (k tt), st.result (k tt)).
Proof. unfold st.render. by rewrite bind_returned. Qed.

Lemma bind_assoc {A B C} (m : st.script A) (k : A -> st.script B) (h : B -> st.script C) :
  (m ≫= k) ≫= h = m ≫= (fun a => k a ≫= h).
Proof.
  destruct m as [w [a| |e]]; try reflexivity.
  unfold mbind, st.script_bind. destruct (k a) as [w1 [b| |e1]]; try reflexivity.
  destruct (h b) as [w2 r]. by rewrite app_assoc.
Qed.

(** Running the prefix of a script that renders and stops. *)
Ltac script_step :=
  rewrite ?bind_ret, ?bind_stopped, ?bind_raised;
  unfold st.error, st.warning, st.success, st.metric, st.subheader,
    st.dataframe, st.download_button, st.stop;
  rewrite ?bind_render, ?bind_ret, ?bind_stopped, ?bind_raised;
  simpl st.elements; simpl st.result.

(** ** The tabular reader *)

Section Reader.

Context `{UnicodeData}.

Lemma reader_unreadable f e :
  read_workbook f = inl e ->
  read_excel_shipment_column f =
  ([st.Error (lit "Failed to read Excel: " ++ e)], st.Stopped).
Proof. intros Hf. unfold read_excel_shipment_column. by rewrite Hf. Qed.

Lemma reader_missing_column f df :
  read_workbook f = inr df -> SHIPMENT_NO ∉ pd.columns df ->
  read_excel_shipment_column f = ([st.Error MISSING_COLUMN], st.Stopped).
Proof.
  intros Hf Hc. unfold read_excel_shipment_column. rewrite Hf, bind_ret.
  rewrite bool_decide_eq_false_2 by done. simpl negb. cbv iota.
  by script_step.
Qed.

Lemma reader_returns f df col :
  read_workbook f = inr df -> pd.getitem df SHIPMENT_NO = Some col ->
  read_excel_shipment_column f = ([], st.Returned (valid_of df col, invalid_of df col)).
Proof.
  intros Hf Hc. unfold read_excel_shipment_column. rewrite Hf, bind_ret.
  assert (Hin : SHIPMENT_NO ∈ pd.columns df) by (apply getitem_is_Some; eauto).
  rewrite bool_decide_eq_true_2 by done. simpl negb. cbv iota.
  rewrite bind_ret, Hc. unfold st.or_raise. rewrite bind_returned. simpl.
  rewrite columns_bool_index, bool_decide_eq_true_2 by done.
  reflexivity.
Qed.

(** The reader has three ways to end, decided by the parse and by the
    presence of the column. *)
Lemma reader_cases f :
  (exists e, read_workbook f = inl e /\
     read_excel_shipment_column f =
     ([st.Error (lit "Failed to read Excel: " ++ e)], st.Stopped)) \/
  (exists df, read_workbook f = inr df /\ (SHIPMENT_NO ∉ pd.columns df) /\
     read_excel_shipment_column f = ([st.Error MISSING_COLUMN], st.Stopped)) \/
  (exists df col, read_workbook f = inr df /\ pd.getitem df SHIPMENT_NO = Some col /\
     read_excel_shipment_column f =
     ([], st.Returned (valid_of df col, invalid_of df col))).
Proof.
  destruct (read_workbook f) as [e|df] eqn:Hf.
  - left. eauto using reader_unreadable.
  - right. destruct (pd.getitem df SHIPMENT_NO) as [col|] eqn:Hc.
    + right. eauto 6 using reader_returns.
    + left. exists df. split; [done|].
      assert (SHIPMENT_NO ∉ pd.columns df) as Hn.
      { rewrite getitem_is_Some, Hc. by intros [? ?]. }
      eauto using reader_missing_column.
Qed.

(** The value column of [valid] are the accepted identifiers of the
    column's cells, each once. *)
Lemma valid_of_elem df col d :
  d ∈ pd.values (valid_of df col) <->
  exists c, c ∈ pd.values (pd.to_series df col) /\ clean_excel_shipment c = Some d.
Proof.
  unfold valid_of, pd.astype_str, pd.drop_duplicates, cleaned.
  rewrite drop_duplicates_seen_elem, elem_of_values_dropna.
  split; [by intros [? _] | intros ?; split; [done | apply not_elem_of_nil]].
Qed.

Lemma valid_of_NoDup df col : NoDup (pd.values (valid_of df col)).
Proof. apply drop_duplicates_seen_NoDup. Qed.

Lemma valid_of_identifier df col d :
  d ∈ pd.values (valid_of df col) -> is_identifier d.
Proof. rewrite valid_of_elem. intros (c & _ & Hc). by eapply clean_identifier. Qed.

(** The rows of [invalid], as (label, cell) pairs, are the rows of the
    frame whose cell is rejected, in their order. *)
Lemma invalid_of_rows df col :
  pd.getitem df SHIPMENT_NO = Some col ->
  exists col',
    pd.getitem (invalid_of df col) SHIPMENT_NO = Some col' /\
    pd.to_series (invalid_of df col) col' =
    filter (fun ic => clean_excel_shipment (snd ic) = None) (pd.to_series df col).
Proof.
  intros Hc. unfold invalid_of.
  set (mask := pd.values (pd.series_isna (cleaned df col))).
  exists (pd.compress_col mask col). split.
  - by rewrite getitem_select, getitem_bool_index, Hc.
  - unfold pd.to_series at 1. simpl.
    rewrite col_objects_compress, compress_combine.
    fold (pd.to_series df col).
    unfold mask, pd.series_isna, cleaned. rewrite !values_map.
    unfold pd.values. rewrite !List.map_map, compress_map_mask.
    etrans; [|apply filter_bool_decide]. apply List.filter_ext.
    intros [i c]. simpl. by destruct (clean_excel_shipment c).
Qed.

End Reader.

(** ** The filename readers *)

Section FolderReaders.

Context `{UnicodeData}.

Lemma add_if_extract shipments filename :
  add_if shipments (extract_shipment_from_filename filename) =
  match extract_shipment_from_filename filename with
  | Some ship => shipments ∪ {[ ship ]}
  | None => shipments
  end.
Proof.
  unfold add_if. rewrite extract_truthy.
  destruct (extract_shipment_from_filename filename); [|done].
  rewrite bool_decide_eq_true_2; [done | eauto].
Qed.

Lemma fold_add_if {A} (step : gset str -> A -> gset str) (g : A -> option str)
    (l : list A) (acc : gset str) :
  (forall shipments a, step shipments a = add_if shipments (g a)) ->
  (forall a ship, g a = Some ship -> is_identifier ship) ->
  fold_left step l acc = acc ∪ list_to_set (omap g l).
Proof.
  intros Hstep Hg. revert acc. induction l as [|a l IH]; intros acc; simpl.
  - set_solver.
  - rewrite IH, Hstep. destruct (g a) as [ship|] eqn:Ha; simpl; [|done].
    apply Hg in Ha as [Hl _]. destruct ship; [done|]. simpl. set_solver.
Qed.

Lemma extract_from_uploaded_files_spec files :
  extract_from_uploaded_files files = identifiers_of (List.map name files).
Proof.
  unfold extract_from_uploaded_files, identifiers_of.
  rewrite (fold_add_if _ (fun f => extract_shipment_from_filename (name f)));
    [|done|intros ? ?; apply extract_identifier].
  rewrite union_empty_l_L. f_equal.
  induction files as [|f files IH]; [done|].
  cbn [omap list_omap List.map]. by rewrite IH.
Qed.

Lemma extract_from_zip_unreadable z e :
  infolist z = inl e ->
  extract_from_zip z = ([st.Error (lit "Failed to read ZIP: " ++ e)], st.Stopped).
Proof. intros Hz. unfold extract_from_zip. rewrite Hz. by script_step. Qed.

Lemma extract_from_zip_spec z infos :
  infolist z = inr infos ->
  extract_from_zip z = ([], st.Returned (identifiers_of (entry_names infos))).
Proof.
  intros Hz. unfold extract_from_zip. rewrite Hz. unfold mret, st.script_ret.
  do 2 f_equal.
  rewrite (fold_add_if _ (fun info => if is_dir info then None
    else extract_shipment_from_filename (posixpath.basename (filename info))));
    [|intros shipments info; by destruct (is_dir info)
     |intros info ship; destruct (is_dir info); [done | apply extract_identifier]].
  rewrite union_empty_l_L. unfold identifiers_of, entry_names. f_equal.
  clear Hz. induction infos as [|info infos IH]; [done|].
  cbn [omap list_omap List.map List.filter].
  destruct (is_dir info); cbn [negb omap list_omap List.map]; by rewrite IH.
Qed.

Lemma elem_of_identifiers_of names ship :
  ship ∈ identifiers_of names <->
  exists n, n ∈ names /\ extract_shipment_from_filename n = Some ship.
Proof. unfold identifiers_of. by rewrite elem_of_list_to_set, list_elem_of_omap. Qed.

(** No name with an identifier: nothing is observed. *)
Lemma identifiers_of_none names :
  Forall (fun n => extract_shipment_from_filename n = None) names ->
  identifiers_of names = ∅.
Proof.
  intros Hn. apply set_eq. intros ship. rewrite elem_of_identifiers_of.
  split; [|by intros ?%not_elem_of_empty].
  intros (n & Hin & He). rewrite Forall_forall in Hn.
  apply Hn in Hin. congruence.
Qed.

End FolderReaders.

(** ** The order of strings and [sorted] *)

Lemma str_leb_refl a : str_leb a a = true.
Proof.
  induction a as [|x a IH]; simpl; [done|].
  by rewrite N.ltb_irrefl, N.eqb_refl.
Qed.

Global Instance str_le_total : Total str_le.
Proof.
  unfold Total, str_le. intros a. induction a as [|x a IH]; intros [|y b]; simpl; auto.
  destruct (N.ltb_spec x y), (N.ltb_spec y x); auto; try lia.
  replace y with x by lia. rewrite N.eqb_refl. apply IH.
Qed.

Global Instance str_le_trans : Transitive str_le.
Proof.
  unfold Transitive, str_le. intros a.
  induction a as [|x a IH]; intros [|y b] [|z c]; simpl; try done.
  destruct (N.ltb_spec x y) as [Hxy|Hxy].
  - intros _. destruct (N.ltb_spec y z) as [Hyz|Hyz].
    + intros _. destruct (N.ltb_spec x z); [done | lia].
    + destruct (N.eqb_spec y z) as [->|]; [|done].
      intros _. destruct (N.ltb_spec x z); [done | lia].
  - destruct (N.eqb_spec x y) as [->|]; [|done].
    intros Hab. destruct (N.ltb_spec y z); [done|].
    destruct (N.eqb_spec y z); [|done]. by apply IH.
Qed.

Global Instance str_le_antisym : AntiSymm (=) str_le.
Proof.
  unfold AntiSymm, str_le. intros a.
  induction a as [|x a IH]; intros [|y b]; simpl; try done.
  destruct (N.ltb_spec x y) as [Hxy|Hxy].
  - intros _. destruct (N.ltb_spec y x); [lia|].
    destruct (N.eqb_spec y x); [lia | done].
  - destruct (N.eqb_spec x y) as [->|]; [|done].
    rewrite N.ltb_irrefl, N.eqb_refl. intros Hab Hba. f_equal. by apply IH.
Qed.

Lemma sorted_Sorted (s : gset str) : Sorted str_le (sorted s).
Proof. apply Sorted_merge_sort; apply _. Qed.

Lemma sorted_Permutation (s : gset str) : sorted s ≡ₚ elements s.
Proof. apply merge_sort_Permutation. Qed.

Lemma elem_of_sorted (s : gset str) x : x ∈ sorted s <-> x ∈ s.
Proof. by rewrite sorted_Permutation, elem_of_elements. Qed.

Lemma sorted_NoDup (s : gset str) : NoDup (sorted s).
Proof. rewrite sorted_Permutation. apply NoDup_elements. Qed.

Lemma length_sorted (s : gset str) : length (sorted s) = size s.
Proof. by rewrite sorted_Permutation. Qed.

(** Without repetition, ascending is strictly ascending, between any two
    positions. *)
Lemma sorted_strict (s : gset str) : StronglySorted str_lt (sorted s).
Proof.
  pose proof (sorted_NoDup s) as Hnd.
  pose proof (Sorted_StronglySorted _ _ (sorted_Sorted s)) as Hs.
  induction Hs as [|x l Hs IH Hx]; [constructor|].
  apply NoDup_cons in Hnd as [Hxl Hnd]. constructor; [by apply IH|].
  rewrite Forall_forall in Hx |- *. intros y Hy. split; [by apply Hx|].
  intros ->. done.
Qed.

(** The listing does not depend on the order in which the set is
    enumerated: it is the only ascending arrangement of its members. *)
Lemma sorted_unique (s : gset str) (l : list str) :
  Sorted str_le l -> l ≡ₚ elements s -> l = sorted s.
Proof.
  intros Hl Hp. apply (Sorted_unique str_le); [done | apply sorted_Sorted|].
  by rewrite Hp, sorted_Permutation.
Qed.

(** ** The thousands format *)

Lemma uint_digits_range u c : c ∈ uint_digits u -> 48 <= c <= 57.
Proof.
  induction u; simpl; try (by intros ?%elem_of_nil);
    intros [->|?]%elem_of_cons; auto; lia.
Qed.

Lemma uint_digits_inj u v : uint_digits u = uint_digits v -> u = v.
Proof.
  revert v. induction u; intros []; simpl; intros [=]; try done; f_equal; auto.
Qed.

Lemma str_of_nat_inj n m : str_of_nat n = str_of_nat m -> n = m.
Proof.
  intros Hnm%uint_digits_inj.
  rewrite <- (DecimalNat.Unsigned.of_to n), <- (DecimalNat.Unsigned.of_to m).
  by rewrite Hnm.
Qed.

Lemma group3_step a b c d rest :
  group3 (a :: b :: c :: d :: rest) = a :: b :: c :: comma :: group3 (d :: rest).
Proof. reflexivity. Qed.

(** Taking the commas out of a grouped digit string gives the digits back. *)
Lemma group3_ungroup r :
  comma ∉ r -> List.filter (fun c => negb (c =? comma)) (group3 r) = r.
Proof.
  assert (Hgen : forall n r, (length r <= n)%nat -> comma ∉ r ->
            List.filter (fun c => negb (c =? comma)) (group3 r) = r);
    [|by apply (Hgen (length r))].
  clear r. intros n. induction n as [n IH] using lt_wf_ind. intros r Hn Hr.
  assert (Hplain : forall l, comma ∉ l -> List.filter (fun c => negb (c =? comma)) l = l).
  { clear. induction l as [|x l IHl]; intros Hl; simpl; [done|].
    apply not_elem_of_cons in Hl as [Hx Hl].
    destruct (N.eqb_spec x comma); [congruence|]. simpl. by rewrite IHl. }
  destruct r as [|a [|b [|c [|d rest]]]]; try (by apply Hplain).
  rewrite group3_step.
  repeat apply not_elem_of_cons in Hr as [? Hr].
  assert (comma ∉ d :: rest) as Hrest by (apply not_elem_of_cons; split; done).
  cbn [List.filter].
  repeat match goal with |- context [?x =? comma] =>
    destruct (N.eqb_spec x comma); [congruence|] end.
  rewrite N.eqb_refl. cbn [negb].
  simpl in Hn. rewrite (IH (length (d :: rest))); [done | simpl; lia | done | done].
Qed.

(** The rendered count determines the count. *)
Lemma format_thousands_inj n m : format_thousands n = format_thousands m -> n = m.
Proof.
  unfold format_thousands. intros Hnm.
  apply (f_equal (@rev char)) in Hnm. rewrite !rev_involutive in Hnm.
  apply (f_equal (List.filter (fun c => negb (c =? comma)))) in Hnm.
  assert (Hc : forall k, comma ∉ rev (str_of_nat k)).
  { intros k Hk. apply list_elem_of_In, in_rev, list_elem_of_In in Hk.
    apply uint_digits_range in Hk. unfold comma in Hk. lia. }
  rewrite !group3_ungroup in Hnm by done.
  apply str_of_nat_inj. apply (f_equal (@rev char)) in Hnm.
  by rewrite !rev_involutive in Hnm.
Qed.

(** ** Reconciliation and the run *)

Lemma getitem_present c1 c2 :
  pd.getitem (pd.from_dict [(SHIPMENT_NO, c1); (lit "Present", c2)]) (lit "Present") = Some c2.
Proof. reflexivity. Qed.

Lemma drop_present idx c1 c2 :
  pd.drop_columns
    {| pd.index := idx; pd.data := [(SHIPMENT_NO, c1); (lit "Present", c2)] |}
    (lit "Present") =
  {| pd.index := idx; pd.data := [(SHIPMENT_NO, c1)] |}.
Proof. reflexivity. Qed.

Section Reconciliation.

Context `{UnicodeData}.

Lemma absent_filter (valid_shipments : pd.Series str) (folder_set : gset str) :
  List.filter (fun v => negb (bool_decide (v ∈ folder_set))) (pd.values valid_shipments) =
  missing_of valid_shipments folder_set.
Proof.
  unfold missing_of. etrans; [|apply filter_bool_decide].
  apply List.filter_ext. intros v. by rewrite bool_decide_not.
Qed.

Lemma missing_df_spec valid_shipments folder_set :
  missing_df valid_shipments folder_set =
  ([], st.Returned (missing_frame valid_shipments folder_set)).
Proof.
  unfold missing_df, result_df. rewrite getitem_present.
  unfold st.or_raise. rewrite bind_returned. cbn [pd.invert].
  rewrite bind_returned. cbn [st.elements st.result mret st.script_ret app].
  do 2 f_equal.
  unfold present_mask, pd.isin. rewrite values_map.
  unfold pd.bool_index, pd.from_dict.
  cbn [pd.index pd.data List.map fst snd pd.compress_col pd.col_objects].
  rewrite drop_present. unfold pd.reset_index, missing_frame.
  cbn [pd.index pd.data].
  rewrite List.map_map, (compress_mask_of _ pd.Str), absent_filter.
  rewrite length_map.
  rewrite (compress_mask_seq (fun v => negb (bool_decide (v ∈ folder_set)))).
  by rewrite absent_filter.
Qed.

(** The reconciliation always runs to the end of the script, rendering
    the elements above. *)
Lemma report_spec valid_shipments invalid_rows folder_set show_preview :
  report valid_shipments invalid_rows folder_set show_preview =
  (report_elements valid_shipments invalid_rows folder_set show_preview, st.Returned tt).
Proof.
  unfold report. rewrite missing_df_spec, bind_returned.
  cbn [st.elements st.result app].
  unfold report_elements, preview_elements.
  destruct show_preview, (pd.df_empty invalid_rows); cbn [negb];
    repeat script_step; unfold missing_frame; cbn [pd.index];
    rewrite length_seq;
    unfold summary_export, result_df, present_mask, pd.isin;
    rewrite values_map; reflexivity.
Qed.

End Reconciliation.

Section Run.

Context `{UnicodeData}.

Lemma read_processed_files_names uploaded_files uploaded_zip names :
  provided_names uploaded_files uploaded_zip = Some names ->
  read_processed_files uploaded_files uploaded_zip =
  ([], st.Returned (identifiers_of names)).
Proof.
  unfold provided_names, read_processed_files.
  destruct uploaded_zip as [z|].
  - destruct (infolist z) as [e|infos] eqn:Hz; [done|].
    intros [= <-]. by apply extract_from_zip_spec.
  - intros [= <-]. rewrite extract_from_uploaded_files_spec.
    by destruct uploaded_files as [[|f l]|].
Qed.

Lemma read_processed_files_unreadable uploaded_files uploaded_zip :
  provided_names uploaded_files uploaded_zip = None ->
  exists z e, uploaded_zip = Some z /\ infolist z = inl e /\
    read_processed_files uploaded_files uploaded_zip =
    ([st.Error (lit "Failed to read ZIP: " ++ e)], st.Stopped).
Proof.
  unfold provided_names, read_processed_files.
  destruct uploaded_zip as [z|]; [|done].
  destruct (infolist z) as [e|infos] eqn:Hz; [|done].
  intros _. exists z, e. eauto using extract_from_zip_unreadable.
Qed.

Lemma run_check_reader_stopped excel_file uploaded_files uploaded_zip show_preview w :
  read_excel_shipment_column excel_file = (w, st.Stopped) ->
  run_check excel_file uploaded_files uploaded_zip show_preview = (w, st.Stopped).
Proof. intros Hr. unfold run_check. by rewrite Hr. Qed.

Lemma run_check_no_valid excel_file uploaded_files uploaded_zip show_preview
    valid invalid :
  read_excel_shipment_column excel_file = ([], st.Returned (valid, invalid)) ->
  valid = [] ->
  run_check excel_file uploaded_files uploaded_zip show_preview =
  ([st.Warning NO_VALID], st.Stopped).
Proof.
  intros Hr ->. unfold run_check. rewrite Hr, bind_returned.
  cbn [pd.empty app]. by repeat script_step.
Qed.

Lemma run_check_reconciles excel_file uploaded_files uploaded_zip show_preview
    valid invalid :
  read_excel_shipment_column excel_file = ([], st.Returned (valid, invalid)) ->
  valid <> [] ->
  run_check excel_file uploaded_files uploaded_zip show_preview =
  read_processed_files uploaded_files uploaded_zip ≫=
    (fun folder_shipments => report valid invalid folder_shipments show_preview).
Proof.
  intros Hr Hv. unfold run_check. rewrite Hr, bind_returned.
  destruct valid as [|iv valid]; [done|].
  cbn [pd.empty app]. rewrite bind_ret.
  by destruct (_ ≫= _).
Qed.

(** A run that reaches the end of the script has read the column, found
    an identifier in it, read the file names, and rendered the report. *)
Lemma run_check_returned excel_file uploaded_files uploaded_zip show_preview els :
  run_check excel_file uploaded_files uploaded_zip show_preview = (els, st.Returned tt) ->
  exists df col names,
    read_workbook excel_file = inr df /\
    pd.getitem df SHIPMENT_NO = Some col /\
    valid_of df col <> [] /\
    provided_names uploaded_files uploaded_zip = Some names /\
    els = report_elements (valid_of df col) (invalid_of df col)
            (identifiers_of names) show_preview.
Proof.
  intros Hrun.
  destruct (reader_cases excel_file)
    as [(e & _ & Hr)|[(df & _ & _ & Hr)|(df & col & Hf & Hc & Hr)]].
  - by rewrite (run_check_reader_stopped _ _ _ _ _ Hr) in Hrun.
  - by rewrite (run_check_reader_stopped _ _ _ _ _ Hr) in Hrun.
  - destruct (decide (valid_of df col = [])) as [Hv|Hv].
    { by rewrite (run_check_no_valid _ _ _ _ _ _ Hr Hv) in Hrun. }
    rewrite (run_check_reconciles _ _ _ _ _ _ Hr Hv) in Hrun.
    destruct (provided_names uploaded_files uploaded_zip) as [names|] eqn:Hn.
    + rewrite (read_processed_files_names _ _ _ Hn), bind_returned, report_spec in Hrun.
      injection Hrun as <-. by exists df, col, names.
    + apply read_processed_files_unreadable in Hn as (z & e & _ & _ & Hz).
      by rewrite Hz in Hrun.
Qed.

End Run.

Lemma NoDup_count {A} `{EqDecision A} (l : list A) (x : A) :
  NoDup l -> x ∈ l -> length (filter (fun y => y = x) l) = 1%nat.
Proof.
  induction 1 as [|y l Hy Hnd IH]; [by intros ?%elem_of_nil|].
  rewrite filter_cons. intros [->|Hx]%elem_of_cons.
  - rewrite decide_True by done. simpl. f_equal.
    destruct (filter _ l) as [|z k] eqn:Hf; [done|].
    assert (z ∈ filter (fun y' => y' = y) l) as Hz by (rewrite Hf; left).
    apply list_elem_of_filter in Hz as [-> ?]. done.
  - rewrite decide_False by (intros ->; done). by apply IH.
Qed.

Section Stripping.

Context `{UnicodeData}.

(** The relation of the specification's words determines the stripped
    string, and [re.sub(r"\D", "", s)] computes it. *)
Lemma stripped_iff s d : stripped s d <-> d = re_sub_nondigits s.
Proof.
  unfold re_sub_nondigits. split.
  - induction 1 as [|c s d Hc _ IH|c s d Hc _ IH]; simpl; [done| |];
      rewrite Hc; by rewrite ?IH.
  - intros ->. induction s as [|c s IH]; simpl; [constructor|].
    destruct (isdecimal c) eqn:Hc; by constructor.
Qed.

End Stripping.

(** * The claims *)

Section Claims.

Context `{UnicodeData}.

(** C1 (as amended): the filename extractor succeeds exactly when the base
    name begins with at least eight characters of the class [\d], that is
    when its first eight characters are decimal digits, whatever follows
    them, a ninth digit included; the identifier returned is the first
    eight characters of the base name. *)
Theorem extract_shipment_from_filename_spec (filename : str) :
  (is_Some (extract_shipment_from_filename filename) <->
   (8 <= digit_run (posixpath.basename filename))%nat) /\
  (forall ship,
     extract_shipment_from_filename filename = Some ship <->
     ship = take 8 (posixpath.basename filename) /\
     length ship = 8%nat /\ Forall (fun c => isdecimal c = true) ship).
Proof.
  rewrite extract_unfold. split.
  - apply match_digits_run.
  - intros ship. apply match_digits_Some.
Qed.

(** C2: the missing frame holds exactly the expected identifiers that are
    not in the observed set, in the order of the expected sequence, and
    the metric "Missing shipments" shows their number. *)
Theorem missing_subsequence_spec (valid_shipments : pd.Series str)
    (invalid_rows : pd.DataFrame) (folder_set : gset str) (show_preview : bool) :
  missing_df valid_shipments folder_set =
    ([], st.Returned
           {| pd.index :=
                seq 0 (length (filter (fun x => x ∉ folder_set) (pd.values valid_shipments)));
              pd.data :=
                [(SHIPMENT_NO,
                  pd.ObjectCol
                    (List.map pd.Str
                       (filter (fun x => x ∉ folder_set) (pd.values valid_shipments))))] |}) /\
  st.result (report valid_shipments invalid_rows folder_set show_preview) = st.Returned tt /\
  List.filter
    (fun e => match e with
              | st.Metric label _ => bool_decide (label = lit "Missing shipments")
              | _ => false
              end)
    (st.elements (report valid_shipments invalid_rows folder_set show_preview)) =
  [ st.Metric (lit "Missing shipments")
      (format_thousands
         (length (filter (fun x => x ∉ folder_set) (pd.values valid_shipments)))) ].
Proof.
  split; [apply missing_df_spec|]. rewrite report_spec. split; [done|].
  unfold report_elements, preview_elements. cbn [st.elements].
  destruct show_preview, (pd.df_empty invalid_rows); reflexivity.
Qed.

(** C3: the cell extractor returns a string exactly when that string is the
    string form of the value with every character outside [\d] taken out
    (the others kept, in place) and has length 8; so it succeeds exactly
    when the stripped string form has length 8, and a missing value is
    rejected.  On the cells of the specification: "1234-5678" gives
    "12345678", "123456789" (nine digits), the empty string and a missing
    cell give nothing. *)
Theorem clean_excel_shipment_spec (val : pd.obj) :
  (forall digits,
     clean_excel_shipment val = Some digits <->
     stripped (py_str val) digits /\ length digits = 8%nat) /\
  (is_Some (clean_excel_shipment val) <->
   exists digits, stripped (py_str val) digits /\ length digits = 8%nat) /\
  (pd.isna val = true -> clean_excel_shipment val = None) /\
  clean_excel_shipment (pd.Str (lit "1234-5678")) = Some (lit "12345678") /\
  clean_excel_shipment (pd.Str (lit "12 34 56 78 ")) = Some (lit "12345678") /\
  clean_excel_shipment (pd.Str (lit "123456789")) = None /\
  clean_excel_shipment (pd.Str (lit "1234567")) = None /\
  clean_excel_shipment (pd.Str []) = None /\
  clean_excel_shipment pd.NaN = None.
Proof.
  assert (Hiff : forall digits,
     clean_excel_shipment val = Some digits <->
     stripped (py_str val) digits /\ length digits = 8%nat).
  { intros digits. rewrite clean_Some, stripped_iff. split.
    - intros (_ & -> & Hl). done.
    - intros [-> Hl]. split; [|done].
      destruct (pd.isna val) eqn:Hna; [|done].
      by rewrite isna_no_digits in Hl. }
  split; [exact Hiff|]. split.
  { split.
    - intros [digits Hd]. exists digits. by apply Hiff.
    - intros (digits & Hd). exists digits. by apply Hiff. }
  split.
  { intros Hna. unfold clean_excel_shipment. by rewrite Hna. }
  repeat split.
Qed.

(** C4 (as amended): when the reader returns, the rows of its invalid report, each a
    row label with the [Shipment No.] cell of that row as it was read, are
    exactly the rows of the input whose cell is rejected, in the input's
    order; every reported cell fails the extraction and its text is none
    of the expected identifiers.  The report has no other column than
    [Shipment No.]. *)
Theorem invalid_rows_report (uploaded_file : UploadedFile) w valid invalid :
  read_excel_shipment_column uploaded_file = (w, st.Returned (valid, invalid)) ->
  exists df col col',
    read_workbook uploaded_file = inr df /\
    pd.getitem df SHIPMENT_NO = Some col /\
    Forall (fun n => n = SHIPMENT_NO) (pd.columns invalid) /\
    pd.getitem invalid SHIPMENT_NO = Some col' /\
    pd.to_series invalid col' =
      filter (fun ic => clean_excel_shipment (snd ic) = None) (pd.to_series df col) /\
    Forall (fun ic => clean_excel_shipment (snd ic) = None /\
                      py_str (snd ic) ∉ pd.values valid)
           (pd.to_series invalid col').
Proof.
  intros Hr.
  destruct (reader_cases uploaded_file)
    as [(e & _ & Hr')|[(df & _ & _ & Hr')|(df & col & Hf & Hc & Hr')]];
    rewrite Hr' in Hr; try discriminate.
  injection Hr as <- <- <-.
  destruct (invalid_of_rows df col Hc) as (col' & Hc' & Hrows).
  exists df, col, col'. split; [done|]. split; [done|].
  split; [apply columns_select|]. split; [done|]. split; [done|].
  rewrite Hrows. apply Forall_forall. intros [i c] [Hrej _]%list_elem_of_filter.
  simpl in *. split; [done|]. intros Hin.
  apply valid_of_identifier in Hin as Hid.
  generalize (clean_of_identifier _ Hid). intros Hok.
  destruct Hid as [Hl Hd]. apply re_sub_nondigits_digits in Hd.
  unfold clean_excel_shipment in Hrej.
  destruct (pd.isna c) eqn:Hna.
  - apply isna_no_digits in Hna. rewrite Hd in Hna. by rewrite Hna in Hl.
  - unfold len_is in Hrej. rewrite Hd, Hl in Hrej. done.
Qed.

(** C5: the expected sequence the reader returns holds no identifier
    twice: it holds exactly the identifiers accepted from the column's
    cells, and however many cells clean to one identifier, that identifier
    occurs once. *)
Theorem expected_set_no_duplicates (uploaded_file : UploadedFile) w valid invalid :
  read_excel_shipment_column uploaded_file = (w, st.Returned (valid, invalid)) ->
  NoDup (pd.values valid) /\
  exists df col,
    read_workbook uploaded_file = inr df /\
    pd.getitem df SHIPMENT_NO = Some col /\
    forall cell digits,
      cell ∈ pd.values (pd.to_series df col) ->
      clean_excel_shipment cell = Some digits ->
      length (filter (fun x => x = digits) (pd.values valid)) = 1%nat.
Proof.
  intros Hr.
  destruct (reader_cases uploaded_file)
    as [(e & _ & Hr')|[(df & _ & _ & Hr')|(df & col & Hf & Hc & Hr')]];
    rewrite Hr' in Hr; try discriminate.
  injection Hr as <- <- <-. split; [apply valid_of_NoDup|].
  exists df, col. repeat split; try done.
  intros cell digits Hcell Hclean. apply NoDup_count; [apply valid_of_NoDup|].
  apply valid_of_elem. eauto.
Qed.

(** C6: when the frame read from the upload has no column called exactly
    [Shipment No.], the run renders the missing-column error, stops there,
    and offers no download. *)
Theorem missing_column_aborts (excel_file : UploadedFile) (df : pd.DataFrame)
    (uploaded_files : option (list UploadedFile)) (uploaded_zip : option UploadedFile)
    (show_preview : bool) :
  read_workbook excel_file = inr df ->
  SHIPMENT_NO ∉ pd.columns df ->
  run_check excel_file uploaded_files uploaded_zip show_preview =
    ([st.Error (lit "Excel must contain a column named **'Shipment No.'** (exact match).")],
     st.Stopped) /\
  List.filter st.is_download
    (st.elements (run_check excel_file uploaded_files uploaded_zip show_preview)) = [].
Proof.
  intros Hf Hc.
  pose proof (reader_missing_column _ _ Hf Hc) as Hr.
  rewrite (run_check_reader_stopped _ uploaded_files uploaded_zip show_preview _ Hr).
  by split.
Qed.

(** C7: when the reader returns an empty expected sequence, the run
    renders the warning, stops there, and offers no download. *)
Theorem no_valid_identifiers_aborts (excel_file : UploadedFile)
    (uploaded_files : option (list UploadedFile)) (uploaded_zip : option UploadedFile)
    (show_preview : bool) w valid invalid :
  read_excel_shipment_column excel_file = (w, st.Returned (valid, invalid)) ->
  pd.values valid = [] ->
  run_check excel_file uploaded_files uploaded_zip show_preview =
    ([st.Warning (lit "No valid 8-digit shipment numbers found in Excel after cleaning.")],
     st.Stopped) /\
  List.filter st.is_download
    (st.elements (run_check excel_file uploaded_files uploaded_zip show_preview)) = [].
Proof.
  intros Hr Hv.
  assert (w = []) as ->.
  { destruct (reader_cases excel_file)
      as [(e & _ & Hr')|[(df & _ & _ & Hr')|(df & col & _ & _ & Hr')]];
      rewrite Hr' in Hr; by inversion Hr. }
  assert (valid = []) as Hnil by (by destruct valid).
  rewrite (run_check_no_valid _ uploaded_files uploaded_zip show_preview _ _ Hr Hnil).
  by split.
Qed.

(** C8: on a readable archive, the archive reader returns the set the
    multi-file reader returns on files whose names are the base names of
    the archive's entries that are not directories. *)
Theorem readers_agree (files : list UploadedFile) (uploaded_zip : UploadedFile)
    (infos : list ZipInfo) :
  infolist uploaded_zip = inr infos ->
  (forall n,
     n ∈ List.map name files <->
     n ∈ List.map (fun info => posixpath.basename (filename info))
                  (List.filter (fun info => negb (is_dir info)) infos)) ->
  extract_from_zip uploaded_zip = ([], st.Returned (extract_from_uploaded_files files)).
Proof.
  intros Hz Hnames.
  rewrite (extract_from_zip_spec _ _ Hz), extract_from_uploaded_files_spec.
  do 2 f_equal. apply set_eq. intros ship.
  rewrite !elem_of_identifiers_of. unfold entry_names.
  split; intros (n & Hn & He); exists n; (split; [by apply Hnames | done]).
Qed.

(** C9: a run that reaches the end of the script offers the download
    [shipment_presence_summary.xlsx] of two sheets: [Summary], with the
    columns [Shipment No.] and [Present] holding, row by row, each expected
    identifier and whether it is observed; and [FolderSet], with the one
    column [FolderShipments] listing the observed identifiers, each once,
    in strictly ascending order of their code points. *)
Theorem summary_export_content (excel_file : UploadedFile)
    (uploaded_files : option (list UploadedFile)) (uploaded_zip : option UploadedFile)
    (show_preview : bool) (els : list st.element) :
  run_check excel_file uploaded_files uploaded_zip show_preview = (els, st.Returned tt) ->
  exists valid invalid observed listing,
    read_excel_shipment_column excel_file = ([], st.Returned (valid, invalid)) /\
    read_processed_files uploaded_files uploaded_zip = ([], st.Returned observed) /\
    st.DownloadButton
      (DOWN_ARROW ++ lit " Download Full Summary (Excel)")
      [ {| pd.sheet_name := lit "Summary";
           pd.table :=
             [ (lit "Shipment No.", pd.ObjectCol (List.map pd.Str (pd.values valid)));
               (lit "Present",
                pd.BoolCol (List.map (fun v => bool_decide (v ∈ observed))
                                     (pd.values valid))) ] |};
        {| pd.sheet_name := lit "FolderSet";
           pd.table :=
             [ (lit "FolderShipments", pd.ObjectCol (List.map pd.Str listing)) ] |} ]
      (lit "shipment_presence_summary.xlsx") XLSX_MIME ∈ els /\
    NoDup (pd.values valid) /\
    StronglySorted str_lt listing /\
    (forall x, x ∈ listing <-> x ∈ observed).
Proof.
  intros Hrun.
  apply run_check_returned in Hrun as (df & col & names & Hf & Hc & Hv & Hn & ->).
  exists (valid_of df col), (invalid_of df col), (identifiers_of names),
    (sorted (identifiers_of names)).
  split; [by apply reader_returns|]. split; [by apply read_processed_files_names|].
  split; [|split; [apply valid_of_NoDup|split; [apply sorted_strict|apply elem_of_sorted]]].
  unfold report_elements. rewrite !elem_of_app. right. right.
  apply elem_of_cons. right. apply list_elem_of_singleton. reflexivity.
Qed.

(** C10: when the reader returns a non-empty expected sequence and none of
    the names the filename reader is given yields an identifier, the run
    is the reconciliation against the empty set and reaches the end of the
    script: the observed count shown is 0, every presence flag is false,
    and the missing frame lists the whole expected sequence. *)
Theorem empty_observed_set_completes (excel_file : UploadedFile)
    (uploaded_files : option (list UploadedFile)) (uploaded_zip : option UploadedFile)
    (show_preview : bool) w valid invalid names :
  read_excel_shipment_column excel_file = (w, st.Returned (valid, invalid)) ->
  valid <> [] ->
  provided_names uploaded_files uploaded_zip = Some names ->
  Forall (fun n => extract_shipment_from_filename n = None) names ->
  read_processed_files uploaded_files uploaded_zip = ([], st.Returned ∅) /\
  run_check excel_file uploaded_files uploaded_zip show_preview =
    report valid invalid ∅ show_preview /\
  st.result (report valid invalid ∅ show_preview) = st.Returned tt /\
  st.Metric (lit "Unique shipments in folder") (lit "0")
    ∈ st.elements (report valid invalid ∅ show_preview) /\
  pd.getitem (result_df valid ∅) (lit "Present") =
    Some (pd.BoolCol (repeat false (length valid))) /\
  missing_df valid ∅ =
    ([], st.Returned
           {| pd.index := seq 0 (length valid);
              pd.data := [(SHIPMENT_NO, pd.ObjectCol (List.map pd.Str (pd.values valid)))] |}).
Proof.
  intros Hr Hv Hn Hnone.
  assert (w = []) as ->.
  { destruct (reader_cases excel_file)
      as [(e & _ & Hr')|[(df & _ & _ & Hr')|(df & col & _ & _ & Hr')]];
      rewrite Hr' in Hr; by inversion Hr. }
  pose proof (read_processed_files_names _ _ _ Hn) as Hread.
  rewrite (identifiers_of_none _ Hnone) in Hread.
  split; [done|]. split.
  { rewrite (run_check_reconciles _ _ _ _ _ _ Hr Hv), Hread, bind_returned.
    by destruct (report _ _ _ _). }
  rewrite report_spec. split; [done|]. split.
  { unfold report_elements. cbn [st.elements]. rewrite size_empty.
    apply elem_of_app. left. apply elem_of_cons. right. left. }
  assert (Hall : missing_of valid ∅ = pd.values valid).
  { unfold missing_of. induction (pd.values valid) as [|x l IH]; [done|].
    rewrite filter_cons_True by apply not_elem_of_empty. by rewrite IH. }
  split.
  - unfold result_df. rewrite getitem_present. do 2 f_equal.
    unfold present_mask, pd.isin. rewrite values_map.
    unfold pd.values. clear. induction valid as [|[i v] valid IH]; simpl; [done|].
    by rewrite IH.
  - rewrite missing_df_spec. unfold missing_frame. rewrite Hall.
    unfold pd.values. by rewrite length_map.
Qed.

End Claims.


(** * Examples and witnesses *)

(** On ASCII names the extractor does not consult the database. *)
Lemma ninth_digit_any_database `{UnicodeData} :
  extract_shipment_from_filename (lit "123456789.pdf") = Some (lit "12345678").
Proof. reflexivity. Qed.

Section Examples.

#[local] Existing Instance ascii_database.

(** The examples of the specification. *)
Example extract_examples :
  extract_shipment_from_filename (lit "12345678_invoice.pdf") = Some (lit "12345678") /\
  extract_shipment_from_filename (lit "AB12345678.pdf") = None /\
  extract_shipment_from_filename (lit "1234567X_a.pdf") = None /\
  extract_shipment_from_filename (lit "dir/20000000_b.pdf") = Some (lit "20000000") /\
  extract_shipment_from_filename (lit "1234567") = None.
Proof. repeat split. Qed.

Example clean_examples :
  clean_excel_shipment (pd.Str (lit "1234-5678")) = Some (lit "12345678") /\
  clean_excel_shipment (pd.Str (lit "123456789")) = None /\
  clean_excel_shipment (pd.Str []) = None /\
  clean_excel_shipment pd.NaN = None /\
  clean_excel_shipment pd.PyNone = None /\
  clean_excel_shipment (pd.Int 12345678) = Some (lit "12345678") /\
  clean_excel_shipment (pd.Int (-12345678)) = Some (lit "12345678") /\
  clean_excel_shipment (pd.Int 0) = None /\
  clean_excel_shipment (pd.Bool true) = None /\
  clean_excel_shipment (pd.Str (lit "00123456")) = Some (lit "00123456").
Proof. vm_compute. repeat split. Qed.

Example reader_example :
  read_excel_shipment_column demo_excel = ([], st.Returned (demo_valid, demo_invalid)).
Proof. vm_compute. reflexivity. Qed.

Example archive_example :
  extract_from_zip (archive "processed.zip" demo_infos) =
  ([], st.Returned ({[ lit "10000000"; lit "20000000" ]} : gset str)).
Proof. vm_compute. reflexivity. Qed.

Example reconciliation_example :
  missing_df [(0%nat, lit "11111111"); (1%nat, lit "22222222")]
             {[ lit "22222222"; lit "33333333" ]} =
  ([], st.Returned
         {| pd.index := [0%nat];
            pd.data := [(lit "Shipment No.", pd.ObjectCol [pd.Str (lit "11111111")])] |}) /\
  sorted {[ lit "22222222"; lit "33333333"; lit "11111111" ]} =
  [lit "11111111"; lit "22222222"; lit "33333333"].
Proof. split; vm_compute; reflexivity. Qed.

Example format_thousands_examples :
  format_thousands 0 = lit "0" /\ format_thousands 999 = lit "999" /\
  format_thousands 1000 = lit "1,000" /\ format_thousands 4321 = lit "4,321".
Proof. repeat split. Qed.

(** C1, counterexample to the claim as stated: a base name that begins with
    nine digits before the first non-digit is accepted, and its first eight
    characters are returned. *)
Lemma ninth_digit_is_accepted :
  extract_shipment_from_filename (lit "123456789.pdf") = Some (lit "12345678") /\
  digit_run (posixpath.basename (lit "123456789.pdf")) = 9%nat /\
  ~ (is_Some (extract_shipment_from_filename (lit "123456789.pdf")) <->
     digit_run (posixpath.basename (lit "123456789.pdf")) = 8%nat).
Proof.
  split; [reflexivity|]. split; [reflexivity|].
  intros [Hto _]. assert (9 = 8)%nat as Heq; [|discriminate Heq].
  apply Hto. by exists (lit "12345678").
Qed.

(** C4, counterexample to the claim as stated: the rows of [demo_frame]
    have a cell in the column [Customer], and the report of the rows 2 and
    3 has none: it is not the selection of the original rows. *)
Lemma invalid_report_drops_other_columns :
  read_excel_shipment_column demo_excel = ([], st.Returned (demo_valid, demo_invalid)) /\
  pd.columns demo_frame = [lit "Shipment No."; lit "Customer"] /\
  pd.bool_index demo_frame [false; false; true; true] =
    {| pd.index := [2%nat; 3%nat];
       pd.data := [ (lit "Shipment No.", pd.ObjectCol [pd.Str (lit "123"); pd.NaN]);
                    (lit "Customer", pd.ObjectCol [pd.Str (lit "C"); pd.Str (lit "D")]) ] |} /\
  pd.columns demo_invalid = [lit "Shipment No."] /\
  pd.getitem demo_invalid (lit "Customer") = None /\
  demo_invalid <> pd.bool_index demo_frame [false; false; true; true].
Proof.
  split; [vm_compute; reflexivity|]. repeat split. discriminate.
Qed.

(** C4, witness: the rows labelled 2 and 3 of [demo_frame] are reported. *)
Lemma invalid_rows_report_witness :
  exists df col col',
    read_workbook demo_excel = inr df /\
    pd.getitem df SHIPMENT_NO = Some col /\
    Forall (fun n => n = SHIPMENT_NO) (pd.columns demo_invalid) /\
    pd.getitem demo_invalid SHIPMENT_NO = Some col' /\
    pd.to_series demo_invalid col' =
      filter (fun ic => clean_excel_shipment (snd ic) = None) (pd.to_series df col) /\
    Forall (fun ic => clean_excel_shipment (snd ic) = None /\
                      py_str (snd ic) ∉ pd.values demo_valid)
           (pd.to_series demo_invalid col').
Proof.
  apply (invalid_rows_report demo_excel [] demo_valid demo_invalid).
  vm_compute. reflexivity.
Defined.

(** C5, witness: the cells "12345678" and "1-2345678" give one identifier. *)
Lemma expected_set_no_duplicates_witness :
  pd.values demo_valid = [lit "12345678"] /\
  NoDup (pd.values demo_valid) /\
  exists df col,
    read_workbook demo_excel = inr df /\
    pd.getitem df SHIPMENT_NO = Some col /\
    forall cell digits,
      cell ∈ pd.values (pd.to_series df col) ->
      clean_excel_shipment cell = Some digits ->
      length (filter (fun x => x = digits) (pd.values demo_valid)) = 1%nat.
Proof.
  split; [reflexivity|].
  apply (expected_set_no_duplicates demo_excel [] demo_valid demo_invalid).
  vm_compute. reflexivity.
Defined.

(** C6, witness: neither "shipment no." nor "Shipment No" is the column. *)
Lemma missing_column_aborts_witness :
  run_check (workbook "a.xlsx" other_headers_frame) (Some demo_files) None true =
    ([st.Error (lit "Excel must contain a column named **'Shipment No.'** (exact match).")],
     st.Stopped) /\
  List.filter st.is_download
    (st.elements (run_check (workbook "a.xlsx" other_headers_frame)
                            (Some demo_files) None true)) = [].
Proof.
  apply (missing_column_aborts _ other_headers_frame).
  - reflexivity.
  - apply (bool_decide_unpack _). vm_compute. exact I.
Defined.

(** C7, witness: a column of rejected cells only. *)
Lemma no_valid_identifiers_aborts_witness :
  run_check (workbook "a.xlsx" rejected_frame) (Some demo_files) None true =
    ([st.Warning (lit "No valid 8-digit shipment numbers found in Excel after cleaning.")],
     st.Stopped) /\
  List.filter st.is_download
    (st.elements (run_check (workbook "a.xlsx" rejected_frame)
                            (Some demo_files) None true)) = [].
Proof.
  apply (no_valid_identifiers_aborts (workbook "a.xlsx" rejected_frame) (Some demo_files)
           None true [] []
           {| pd.index := seq 0 3;
              pd.data := [(lit "Shipment No.",
                           pd.ObjectCol [pd.Str (lit "123"); pd.NaN;
                                         pd.Str (lit "123456789")])] |}).
  - vm_compute. reflexivity.
  - reflexivity.
Defined.

(** C8, witness: the archive of the specification's scenario and the same
    files uploaded one by one, in another order. *)
Lemma readers_agree_witness :
  extract_from_zip (archive "processed.zip" demo_infos) =
  ([], st.Returned (extract_from_uploaded_files demo_files)).
Proof.
  apply (readers_agree demo_files (archive "processed.zip" demo_infos) demo_infos).
  - reflexivity.
  - intros n.
    assert (List.map name demo_files =
            [lit "bad.pdf"; lit "20000000_b.pdf"; lit "10000000_a.pdf"]) as -> by reflexivity.
    assert (List.map (fun info => posixpath.basename (filename info))
                     (List.filter (fun info => negb (is_dir info)) demo_infos) =
            [lit "10000000_a.pdf"; lit "20000000_b.pdf"; lit "bad.pdf"]) as -> by reflexivity.
    rewrite !elem_of_cons, !elem_of_nil. tauto.
Defined.

(** C9, witness: the run on [demo_excel] and the archive. *)
Lemma summary_export_content_witness :
  exists valid invalid observed listing,
    read_excel_shipment_column demo_excel = ([], st.Returned (valid, invalid)) /\
    read_processed_files None (Some (archive "processed.zip" demo_infos)) =
      ([], st.Returned observed) /\
    st.DownloadButton
      (DOWN_ARROW ++ lit " Download Full Summary (Excel)")
      [ {| pd.sheet_name := lit "Summary";
           pd.table :=
             [ (lit "Shipment No.", pd.ObjectCol (List.map pd.Str (pd.values valid)));
               (lit "Present",
                pd.BoolCol (List.map (fun v => bool_decide (v ∈ observed))
                                     (pd.values valid))) ] |};
        {| pd.sheet_name := lit "FolderSet";
           pd.table :=
             [ (lit "FolderShipments", pd.ObjectCol (List.map pd.Str listing)) ] |} ]
      (lit "shipment_presence_summary.xlsx") XLSX_MIME
      ∈ st.elements (run_check demo_excel None (Some (archive "processed.zip" demo_infos)) true) /\
    NoDup (pd.values valid) /\
    StronglySorted str_lt listing /\
    (forall x, x ∈ listing <-> x ∈ observed).
Proof.
  apply (summary_export_content demo_excel None
           (Some (archive "processed.zip" demo_infos)) true).
  vm_compute. reflexivity.
Defined.

(** C10, witness: three uploaded files, none named by an identifier. *)
Lemma empty_observed_set_completes_witness :
  read_processed_files (Some unmatched_files) None = ([], st.Returned ∅) /\
  run_check demo_excel (Some unmatched_files) None false =
    report demo_valid demo_invalid ∅ false /\
  st.result (report demo_valid demo_invalid ∅ false) = st.Returned tt /\
  st.Metric (lit "Unique shipments in folder") (lit "0")
    ∈ st.elements (report demo_valid demo_invalid ∅ false) /\
  pd.getitem (result_df demo_valid ∅) (lit "Present") =
    Some (pd.BoolCol (repeat false (length demo_valid))) /\
  missing_df demo_valid ∅ =
    ([], st.Returned
           {| pd.index := seq 0 (length demo_valid);
              pd.data := [(SHIPMENT_NO,
                           pd.ObjectCol (List.map pd.Str (pd.values demo_valid)))] |}).
Proof.
  apply (empty_observed_set_completes demo_excel (Some unmatched_files) None false []
           demo_valid demo_invalid (List.map name unmatched_files)).
  - vm_compute. reflexivity.
  - discriminate.
  - reflexivity.
  - repeat constructor.
Defined.

(** With no file at all the run block does the same. *)
Example no_files_example :
  st.result (run_check demo_excel (Some []) None false) = st.Returned tt /\
  st.result (run_check demo_excel None None false) = st.Returned tt.
Proof. split; vm_compute; reflexivity. Qed.

End Examples.


(** * Further properties of the code *)

Lemma rfind_join c dir n :
  c ∉ n -> rfind c (dir ++ c :: n) = Z.of_nat (length dir).
Proof.
  intros Hn. induction dir as [|x dir IH]; simpl rfind.
  - rewrite (rfind_absent c n Hn). simpl. by rewrite N.eqb_refl.
  - rewrite IH. destruct (Z.leb_spec 0 (Z.of_nat (length dir))); [|lia].
    simpl length. lia.
Qed.

Lemma basename_join dir n :
  posixpath.sep ∉ n -> posixpath.basename (dir ++ posixpath.sep :: n) = n.
Proof.
  intros Hn. unfold posixpath.basename, slice_from. rewrite (rfind_join _ _ _ Hn).
  replace (Z.to_nat (Z.of_nat (length dir) + 1)) with (length (dir ++ [posixpath.sep])).
  - rewrite (cons_middle posixpath.sep dir n), app_assoc. apply drop_app_length.
  - rewrite length_app. simpl. lia.
Qed.

(** Only the last characters of a name decide [endswith]. *)
Lemma endswith_tail stem tail suffix :
  (length suffix <= length tail)%nat ->
  endswith (stem ++ tail) suffix = endswith tail suffix.
Proof.
  intros Hl. unfold endswith. rewrite length_app.
  replace (length stem + length tail - length suffix)%nat
    with (length stem + (length tail - length suffix))%nat by lia.
  by rewrite drop_app_add.
Qed.

Lemma dropna_app {A} (s1 s2 : pd.Series (option A)) :
  pd.dropna (s1 ++ s2) = pd.dropna s1 ++ pd.dropna s2.
Proof.
  induction s1 as [|[i [v|]] s1 IH]; simpl; [done| |done]. by rewrite IH.
Qed.

Lemma series_map_app {A B} (f : A -> B) (s1 s2 : pd.Series A) :
  pd.map f (s1 ++ s2) = pd.map f s1 ++ pd.map f s2.
Proof. unfold pd.map. apply List.map_app. Qed.

(** A row of the cleaned, non-missing series comes from one row of the
    series, which splits it the same way. *)
Lemma dropna_map_split {A B} (f : A -> option B) (s : pd.Series A) s1 i d s2 :
  pd.dropna (pd.map f s) = s1 ++ (i, d) :: s2 <->
  exists r1 c r2,
    s = r1 ++ (i, c) :: r2 /\ f c = Some d /\
    pd.dropna (pd.map f r1) = s1 /\ pd.dropna (pd.map f r2) = s2.
Proof.
  split.
  - revert s1. induction s as [|[j a] s IH]; intros s1 Hs; simpl in Hs.
    + by destruct s1.
    + destruct (f a) as [b|] eqn:Hfa.
      * destruct s1 as [|p s1]; simpl in Hs.
        -- injection Hs as -> -> Hs. exists [], a, s. by rewrite Hfa.
        -- injection Hs as <- Hs. apply IH in Hs as (r1 & c & r2 & -> & Hc & <- & <-).
           exists ((j, a) :: r1), c, r2. simpl. by rewrite Hfa.
      * apply IH in Hs as (r1 & c & r2 & -> & Hc & <- & <-).
        exists ((j, a) :: r1), c, r2. simpl. by rewrite Hfa.
  - intros (r1 & c & r2 & -> & Hc & <- & <-).
    rewrite series_map_app, dropna_app. simpl. by rewrite Hc.
Qed.

Lemma dropna_map_omap {A B} (f : A -> option B) (s : pd.Series A) :
  pd.dropna (pd.map f s) =
  omap (fun r => match f (snd r) with Some d => Some (fst r, d) | None => None end) s.
Proof.
  induction s as [|[i a] s IH]; [done|].
  cbn [pd.map List.map pd.dropna omap list_omap fst snd].
  fold (pd.map f s). rewrite IH. by destruct (f a).
Qed.

Lemma compress_mask_index {A B} (g : A * B -> bool) (a : list A) (b : list B) :
  length (pd.compress (List.map g (combine a b)) a) =
  length (List.filter g (combine a b)).
Proof.
  revert b. induction a as [|x a IH]; intros [|y b]; simpl; try done.
  destruct (g (x, y)); simpl; by rewrite IH.
Qed.

Lemma length_dropna_map {A B} (f : A -> option B) (s : pd.Series A) :
  length (pd.dropna (pd.map f s)) =
  length (List.filter (fun r => match f (snd r) with Some _ => true | None => false end) s).
Proof.
  induction s as [|[i a] s IH]; simpl; [done|].
  destruct (f a); simpl; by rewrite IH.
Qed.

Lemma filter_complement_length {A} (g : A -> bool) (l : list A) :
  (length (List.filter g l) + length (List.filter (fun x => negb (g x)) l))%nat = length l.
Proof.
  induction l as [|x l IH]; simpl; [done|].
  destruct (g x); simpl; lia.
Qed.

Lemma size_list_to_set_le (l : list str) :
  (size (list_to_set l : gset str) <= length l)%nat.
Proof.
  induction l as [|x l IH].
  - change (size (∅ : gset str) <= 0)%nat. by rewrite size_empty.
  - rewrite list_to_set_cons. simpl length.
    rewrite size_union_alt, size_singleton.
    assert (size (list_to_set l ∖ {[x]} : gset str) <= size (list_to_set l : gset str))%nat
      by (apply subseteq_size; set_solver).
    lia.
Qed.

Lemma length_omap_le {A B} (f : A -> option B) (l : list A) :
  (length (omap f l) <= length l)%nat.
Proof.
  induction l as [|x l IH]; [done|].
  cbn [omap list_omap length]. change (list_omap A B f l) with (omap f l).
  destruct (f x); simpl length; lia.
Qed.

Section Coverage.

Context `{UnicodeData}.

(** X1: the directories of a path do not count: a path made of any
    directory part, a slash and a name without slash yields what the name
    alone yields, also when the directory part begins with eight digits. *)
Theorem extract_ignores_directories (dir n : str) :
  posixpath.sep ∉ n ->
  extract_shipment_from_filename (dir ++ posixpath.sep :: n) =
  extract_shipment_from_filename n.
Proof.
  intros Hn. rewrite !extract_unfold.
  by rewrite (basename_join dir n Hn), (basename_of_plain n Hn).
Qed.

(** X2: an identifier taken from a file name is a value the cell cleaner
    accepts and returns unchanged, so the identifiers of the two sources
    are compared in one form. *)
Theorem filename_identifier_is_clean (filename ship : str) :
  extract_shipment_from_filename filename = Some ship ->
  clean_excel_shipment (pd.Str ship) = Some ship.
Proof. intros He. eapply clean_of_identifier, extract_identifier, He. Qed.

(** X3: cleaning is idempotent: the digits a cell cleans to clean to
    themselves. *)
Theorem clean_excel_shipment_idempotent (val : pd.obj) (digits : str) :
  clean_excel_shipment val = Some digits ->
  clean_excel_shipment (pd.Str digits) = Some digits.
Proof. intros Hc. eapply clean_of_identifier, clean_identifier, Hc. Qed.

(** X4: when pandas cannot read the upload, the run renders
    "Failed to read Excel: " followed by the exception's text and stops,
    whatever the other inputs are; the file names are not looked at and no
    download is offered. *)
Theorem unreadable_excel_aborts (excel_file : UploadedFile) (e : str)
    (uploaded_files : option (list UploadedFile)) (uploaded_zip : option UploadedFile)
    (show_preview : bool) :
  read_workbook excel_file = inl e ->
  run_check excel_file uploaded_files uploaded_zip show_preview =
  ([st.Error (lit "Failed to read Excel: " ++ e)], st.Stopped).
Proof.
  intros Hf. apply run_check_reader_stopped. by apply reader_unreadable.
Qed.

(** X5: when the column gave an identifier and the archive cannot be
    opened, the run renders "Failed to read ZIP: " followed by the
    exception's text and stops; the uploaded files, if any, are not used
    instead. *)
Theorem unreadable_zip_aborts (excel_file : UploadedFile)
    (uploaded_files : option (list UploadedFile)) (uploaded_zip : UploadedFile)
    (show_preview : bool) w valid invalid (e : str) :
  read_excel_shipment_column excel_file = (w, st.Returned (valid, invalid)) ->
  valid <> [] ->
  infolist uploaded_zip = inl e ->
  run_check excel_file uploaded_files (Some uploaded_zip) show_preview =
  ([st.Error (lit "Failed to read ZIP: " ++ e)], st.Stopped).
Proof.
  intros Hr Hv Hz.
  assert (w = []) as ->.
  { destruct (reader_cases excel_file)
      as [(e' & _ & Hr')|[(df & _ & _ & Hr')|(df & col & _ & _ & Hr')]];
      rewrite Hr' in Hr; by inversion Hr. }
  rewrite (run_check_reconciles _ _ _ _ _ _ Hr Hv).
  unfold read_processed_files. by rewrite (extract_from_zip_unreadable _ _ Hz).
Qed.

(** X6: the run block ends in one of two ways and never with an uncaught
    exception: either it stops after rendering a single error or warning
    and nothing else, or it reaches the end of the script and has rendered
    exactly two download buttons. *)
Theorem run_check_outcomes (excel_file : UploadedFile)
    (uploaded_files : option (list UploadedFile)) (uploaded_zip : option UploadedFile)
    (show_preview : bool) :
  match st.result (run_check excel_file uploaded_files uploaded_zip show_preview) with
  | st.Returned _ =>
      length (List.filter st.is_download
                (st.elements (run_check excel_file uploaded_files uploaded_zip show_preview)))
      = 2%nat
  | st.Stopped =>
      exists body,
        st.elements (run_check excel_file uploaded_files uploaded_zip show_preview)
          = [st.Error body] \/
        st.elements (run_check excel_file uploaded_files uploaded_zip show_preview)
          = [st.Warning body]
  | st.Raised _ => False
  end.
Proof.
  destruct (reader_cases excel_file)
    as [(e & _ & Hr)|[(df & _ & _ & Hr)|(df & col & Hf & Hc & Hr)]].
  - rewrite (run_check_reader_stopped _ _ _ _ _ Hr). simpl. eauto.
  - rewrite (run_check_reader_stopped _ _ _ _ _ Hr). simpl. eauto.
  - destruct (decide (valid_of df col = [])) as [Hv|Hv].
    { rewrite (run_check_no_valid _ _ _ _ _ _ Hr Hv). simpl. eauto. }
    rewrite (run_check_reconciles _ _ _ _ _ _ Hr Hv).
    destruct (provided_names uploaded_files uploaded_zip) as [names|] eqn:Hn.
    + rewrite (read_processed_files_names _ _ _ Hn), bind_returned, report_spec.
      cbn [st.result st.elements app]. unfold report_elements, preview_elements.
      destruct show_preview, (pd.df_empty (invalid_of df col)); reflexivity.
    + apply read_processed_files_unreadable in Hn as (z & e & _ & _ & Hz).
      rewrite Hz. simpl. eauto.
Qed.

(** X7: the engine follows the lower-cased file name: a name in [.xls] is
    read with [xlrd]; names in [.xlsx] and [.xlsm] are read with
    [openpyxl]. *)
Theorem engine_by_extension (uploaded_file : UploadedFile) (stem : str) :
  (lower (name uploaded_file) = stem ++ lit ".xls" ->
   read_workbook uploaded_file = read_excel uploaded_file xlrd) /\
  (lower (name uploaded_file) = stem ++ lit ".xlsx" ->
   read_workbook uploaded_file = read_excel uploaded_file openpyxl) /\
  (lower (name uploaded_file) = stem ++ lit ".xlsm" ->
   read_workbook uploaded_file = read_excel uploaded_file openpyxl).
Proof.
  unfold read_workbook. repeat split; intros ->;
    by rewrite endswith_tail by (simpl; lia).
Qed.

(** X8: the expected sequence is in order of first appearance: it is a
    sublist of the accepted rows of the column (label and cleaned
    identifier) taken in the column's order, it holds no identifier twice,
    and a label and an identifier are in it exactly when the row with that
    label is the first row of the column whose cell cleans to that
    identifier. *)
Theorem expected_first_seen (uploaded_file : UploadedFile) w valid invalid :
  read_excel_shipment_column uploaded_file = (w, st.Returned (valid, invalid)) ->
  exists df col,
    read_workbook uploaded_file = inr df /\
    pd.getitem df SHIPMENT_NO = Some col /\
    valid `sublist_of`
      omap (fun r => match clean_excel_shipment (snd r) with
                     | Some d => Some (fst r, d)
                     | None => None
                     end)
           (pd.to_series df col) /\
    NoDup (pd.values valid) /\
    forall i d,
      (i, d) ∈ valid <->
      exists rows1 cell rows2,
        pd.to_series df col = rows1 ++ (i, cell) :: rows2 /\
        clean_excel_shipment cell = Some d /\
        Forall (fun r => clean_excel_shipment (snd r) <> Some d) rows1.
Proof.
  intros Hr.
  destruct (reader_cases uploaded_file)
    as [(e & _ & Hr')|[(df & _ & _ & Hr')|(df & col & Hf & Hc & Hr')]];
    rewrite Hr' in Hr; try discriminate.
  injection Hr as <- <- <-. exists df, col. split; [done|]. split; [done|].
  split.
  { unfold valid_of, pd.astype_str, pd.drop_duplicates, cleaned.
    rewrite <- dropna_map_omap. apply drop_duplicates_seen_sublist. }
  split; [apply valid_of_NoDup|].
  intros i d. unfold valid_of, pd.astype_str, pd.drop_duplicates, cleaned.
  rewrite drop_duplicates_seen_first. split.
  - intros (_ & s1 & s2 & Hs & Hd).
    apply dropna_map_split in Hs as (r1 & c & r2 & Hsplit & Hcd & <- & _).
    exists r1, c, r2. split; [done|]. split; [done|].
    apply Forall_forall. intros r Hin Hrd. apply Hd.
    apply elem_of_values_dropna. exists (snd r). split; [|done].
    apply list_elem_of_In, in_map, list_elem_of_In, Hin.
  - intros (r1 & c & r2 & Hsplit & Hcd & Hfirst). split; [apply not_elem_of_nil|].
    exists (pd.dropna (pd.map clean_excel_shipment r1)),
      (pd.dropna (pd.map clean_excel_shipment r2)).
    split; [apply dropna_map_split; by exists r1, c, r2|].
    intros (a & Ha & Had)%elem_of_values_dropna.
    apply list_elem_of_In, in_map_iff in Ha as (r & <- & Hin).
    rewrite Forall_forall in Hfirst. by apply (Hfirst r); [apply list_elem_of_In|].
Qed.

(** X9: a rejected cell never aborts the reader: once the column is there,
    the reader returns without rendering anything, whatever the cells hold,
    and no row is lost: the rows of the invalid report and the rows
    [series.dropna()] keeps add up to the rows of the column. *)
Theorem reader_keeps_every_row (uploaded_file : UploadedFile) (df : pd.DataFrame) :
  read_workbook uploaded_file = inr df ->
  SHIPMENT_NO ∈ pd.columns df ->
  exists col valid invalid,
    pd.getitem df SHIPMENT_NO = Some col /\
    read_excel_shipment_column uploaded_file = ([], st.Returned (valid, invalid)) /\
    (length (pd.index invalid) +
     length (pd.dropna (pd.map clean_excel_shipment (pd.to_series df col))))%nat =
    length (pd.to_series df col).
Proof.
  intros Hf Hin. apply getitem_is_Some in Hin as [col Hc].
  exists col, (valid_of df col), (invalid_of df col).
  split; [done|]. split; [by apply reader_returns|].
  unfold invalid_of, pd.select, pd.bool_index, cleaned, pd.series_isna. cbn [pd.index].
  rewrite !values_map. unfold pd.values, pd.to_series. rewrite !List.map_map.
  rewrite (compress_mask_index
             (fun x => match clean_excel_shipment (snd x) with
                       | Some _ => false | None => true end)).
  rewrite length_dropna_map.
  rewrite Nat.add_comm. etrans; [|apply (filter_complement_length
    (fun r : nat * pd.obj => match clean_excel_shipment (snd r) with
                             | Some _ => true | None => false end))].
  f_equal. f_equal. apply List.filter_ext. intros [i c]. simpl.
  by destruct (clean_excel_shipment c).
Qed.

(** X10: the presence flags and the missing frame split the expected
    sequence: the number of [True] flags plus the number of rows of the
    missing frame is the number of expected identifiers. *)
Theorem present_and_missing_counts (valid_shipments : pd.Series str)
    (folder_set : gset str) :
  exists missing,
    missing_df valid_shipments folder_set = ([], st.Returned missing) /\
    (length (List.filter (fun b : bool => b)
               (pd.values (present_mask valid_shipments folder_set))) +
     length (pd.index missing))%nat = length valid_shipments.
Proof.
  exists (missing_frame valid_shipments folder_set).
  split; [apply missing_df_spec|].
  unfold missing_frame, present_mask, pd.isin. cbn [pd.index].
  rewrite length_seq, values_map, <- absent_filter.
  assert (Hflags : forall l : list str,
    length (List.filter (fun b : bool => b)
              (List.map (fun v => bool_decide (v ∈ folder_set)) l)) =
    length (List.filter (fun v => bool_decide (v ∈ folder_set)) l)).
  { induction l as [|x l IH]; simpl; [done|].
    destruct (bool_decide (x ∈ folder_set)); simpl; by rewrite IH. }
  rewrite Hflags, filter_complement_length. unfold pd.values. apply length_map.
Qed.

(** X11: observing more never reports more: when the observed set grows,
    the [Shipment No.] column of the missing frame becomes a sublist of
    what it was. *)
Theorem more_observed_fewer_missing (valid_shipments : pd.Series str)
    (folder_set folder_set' : gset str) :
  folder_set ⊆ folder_set' ->
  exists missing missing' c c',
    missing_df valid_shipments folder_set = ([], st.Returned missing) /\
    missing_df valid_shipments folder_set' = ([], st.Returned missing') /\
    pd.getitem missing SHIPMENT_NO = Some (pd.ObjectCol c) /\
    pd.getitem missing' SHIPMENT_NO = Some (pd.ObjectCol c') /\
    c' `sublist_of` c.
Proof.
  intros Hsub.
  exists (missing_frame valid_shipments folder_set),
    (missing_frame valid_shipments folder_set'),
    (List.map pd.Str (missing_of valid_shipments folder_set)),
    (List.map pd.Str (missing_of valid_shipments folder_set')).
  split; [apply missing_df_spec|]. split; [apply missing_df_spec|].
  split; [reflexivity|]. split; [reflexivity|].
  apply (fmap_sublist pd.Str). unfold missing_of.
  induction (pd.values valid_shipments) as [|x l IH]; [done|].
  rewrite !filter_cons.
  destruct (decide (x ∉ folder_set')) as [Hx'|Hx'].
  - rewrite decide_True by (intros Hx; apply Hx', Hsub, Hx). by apply sublist_skip.
  - destruct (decide (x ∉ folder_set)); [by apply sublist_cons | done].
Qed.

(** X12: the rendering [{:,}] of a count loses nothing: taking the commas
    out gives the decimal digits of the count back, and two counts have the
    same text only when they are equal. *)
Theorem format_thousands_faithful (n m : nat) :
  List.filter (fun c => negb (c =? comma)) (format_thousands n) = str_of_nat n /\
  (format_thousands n = format_thousands m <-> n = m).
Proof.
  split.
  - unfold format_thousands. rewrite List.filter_rev, group3_ungroup.
    + apply rev_involutive.
    + intros Hk. apply list_elem_of_In, in_rev, list_elem_of_In in Hk.
      apply uint_digits_range in Hk. unfold comma in Hk. lia.
  - split; [apply format_thousands_inj | by intros ->].
Qed.

(** X13: the sheet [FolderSet] has as many rows as the folder metric
    counts, and its content does not depend on the order in which the set
    is enumerated: it is the only ascending arrangement of the members. *)
Theorem folder_listing_rows (folder_set : gset str) :
  length (sorted folder_set) = size folder_set /\
  (forall l, Sorted str_le l -> l ≡ₚ elements folder_set -> l = sorted folder_set).
Proof. split; [apply length_sorted | apply sorted_unique]. Qed.

(** X14: a run that reaches the end of the script offers the download
    [missing_shipments.xlsx]: one sheet, [Missing], with the one column
    [Shipment No.] holding the expected identifiers that are not observed,
    in the order of the expected sequence, and no index column. *)
Theorem missing_export_content (excel_file : UploadedFile)
    (uploaded_files : option (list UploadedFile)) (uploaded_zip : option UploadedFile)
    (show_preview : bool) (els : list st.element) :
  run_check excel_file uploaded_files uploaded_zip show_preview = (els, st.Returned tt) ->
  exists valid invalid observed,
    read_excel_shipment_column excel_file = ([], st.Returned (valid, invalid)) /\
    read_processed_files uploaded_files uploaded_zip = ([], st.Returned observed) /\
    st.DownloadButton
      (DOWN_ARROW ++ lit " Download Missing Shipments (Excel)")
      [ {| pd.sheet_name := lit "Missing";
           pd.table :=
             [ (lit "Shipment No.",
                pd.ObjectCol
                  (List.map pd.Str
                     (filter (fun x => x ∉ observed) (pd.values valid)))) ] |} ]
      (lit "missing_shipments.xlsx") XLSX_MIME ∈ els.
Proof.
  intros Hrun.
  apply run_check_returned in Hrun as (df & col & names & Hf & Hc & Hv & Hn & ->).
  exists (valid_of df col), (invalid_of df col), (identifiers_of names).
  split; [by apply reader_returns|]. split; [by apply read_processed_files_names|].
  unfold report_elements. rewrite !elem_of_app. right. right.
  apply elem_of_cons. left. reflexivity.
Qed.

(** X15: the Run button is enabled only with an Excel upload and a
    non-empty input of the chosen mode; the run block then reads that input
    with the reader of the mode: in the multi-file mode the list itself
    (the fallback [or []] is not taken), in the archive mode the archive. *)
Theorem enabled_run_has_inputs (excel_file : option UploadedFile) (m : mode)
    (multi_uploader : option (list UploadedFile)) (zip_uploader : option UploadedFile) :
  run_disabled excel_file (fst (uploads m multi_uploader zip_uploader))
                          (snd (uploads m multi_uploader zip_uploader)) = false ->
  (exists f, excel_file = Some f) /\
  match m with
  | Upload_multiple_files =>
      exists f files,
        multi_uploader = Some (f :: files) /\
        read_processed_files (fst (uploads m multi_uploader zip_uploader))
                             (snd (uploads m multi_uploader zip_uploader)) =
        ([], st.Returned (extract_from_uploaded_files (f :: files)))
  | Upload_a_ZIP =>
      exists z,
        zip_uploader = Some z /\
        read_processed_files (fst (uploads m multi_uploader zip_uploader))
                             (snd (uploads m multi_uploader zip_uploader)) =
        extract_from_zip z
  end.
Proof.
  unfold run_disabled.
  destruct excel_file as [f|]; [|done]. intros Hd. split; [eauto|].
  destruct m; simpl in *.
  - destruct multi_uploader as [[|x files]|]; try done. by exists x, files.
  - destruct zip_uploader as [z|]; [|done]. by exists z.
Qed.

(** X16: the multi-file reader returns exactly the identifiers extracted
    from the names of the files: nothing else gets into the set and no
    extracted identifier is left out. *)
Theorem uploaded_files_members (files : list UploadedFile) (ship : str) :
  ship ∈ extract_from_uploaded_files files <->
  exists f, f ∈ files /\ extract_shipment_from_filename (name f) = Some ship.
Proof.
  rewrite extract_from_uploaded_files_spec, elem_of_identifiers_of. split.
  - intros (n & Hn & He). apply list_elem_of_In, in_map_iff in Hn as (f & <- & Hf).
    exists f. split; [by apply list_elem_of_In | done].
  - intros (f & Hf & He). exists (name f). split; [|done].
    apply list_elem_of_In, in_map, list_elem_of_In, Hf.
Qed.

(** X17: on a readable archive the archive reader returns exactly the
    identifiers extracted from the names of the entries that are not
    directories; a directory entry gives nothing, whatever its name. *)
Theorem archive_members (uploaded_zip : UploadedFile) (infos : list ZipInfo) :
  infolist uploaded_zip = inr infos ->
  exists shipments,
    extract_from_zip uploaded_zip = ([], st.Returned shipments) /\
    forall ship,
      ship ∈ shipments <->
      exists info,
        info ∈ infos /\ is_dir info = false /\
        extract_shipment_from_filename (filename info) = Some ship.
Proof.
  intros Hz. exists (identifiers_of (entry_names infos)).
  split; [by apply extract_from_zip_spec|].
  intros ship. rewrite elem_of_identifiers_of. unfold entry_names. split.
  - intros (n & Hn & He).
    apply list_elem_of_In, in_map_iff in Hn as (info & <- & Hin).
    apply filter_In in Hin as [Hin Hdir]. exists info.
    split; [by apply list_elem_of_In|]. split; [by destruct (is_dir info)|].
    by rewrite extract_basename in He.
  - intros (info & Hin & Hdir & He).
    exists (posixpath.basename (filename info)). split; [|by rewrite extract_basename].
    apply list_elem_of_In, in_map_iff. exists info. split; [done|].
    apply filter_In. split; [by apply list_elem_of_In | by rewrite Hdir].
Qed.

(** X18: the multi-file reader looks at names only: two uploads in which
    the same names occur, in any order, any number of times and with any
    contents, give the same set. *)
Theorem same_names_same_set (files files' : list UploadedFile) :
  (forall n, n ∈ List.map name files <-> n ∈ List.map name files') ->
  extract_from_uploaded_files files = extract_from_uploaded_files files'.
Proof.
  intros Hn. rewrite !extract_from_uploaded_files_spec. apply set_eq. intros ship.
  rewrite !elem_of_identifiers_of.
  split; intros (n & Hin & He); exists n; (split; [by apply Hn | done]).
Qed.

(** X19: the length of the expected sequence, which the metric
    "Unique shipments in Excel" shows, is the number of distinct
    identifiers the cells of the column clean to. *)
Theorem excel_metric_counts_distinct (uploaded_file : UploadedFile) w valid invalid :
  read_excel_shipment_column uploaded_file = (w, st.Returned (valid, invalid)) ->
  exists df col,
    read_workbook uploaded_file = inr df /\
    pd.getitem df SHIPMENT_NO = Some col /\
    length valid =
    size (list_to_set (omap clean_excel_shipment (pd.values (pd.to_series df col)))
          : gset str).
Proof.
  intros Hr.
  destruct (reader_cases uploaded_file)
    as [(e & _ & Hr')|[(df & _ & _ & Hr')|(df & col & Hf & Hc & Hr')]];
    rewrite Hr' in Hr; try discriminate.
  injection Hr as <- <- <-. exists df, col. split; [done|]. split; [done|].
  rewrite <- (length_map snd (valid_of df col)). fold (pd.values (valid_of df col)).
  rewrite <- (size_list_to_set (C:=gset str)) by apply valid_of_NoDup.
  f_equal. apply set_eq. intros d.
  by rewrite !elem_of_list_to_set, valid_of_elem, list_elem_of_omap.
Qed.

(** X20: the observed set is never larger than the number of uploaded
    files. *)
Theorem observed_count_bounded (files : list UploadedFile) :
  (size (extract_from_uploaded_files files) <= length files)%nat.
Proof.
  rewrite extract_from_uploaded_files_spec. unfold identifiers_of.
  etrans; [apply size_list_to_set_le|].
  etrans; [apply length_omap_le|]. by rewrite length_map.
Qed.

(** X21: the test [if ship:] of the two filename readers never drops an
    identifier: what the extractor returns is never the empty string, so
    the step adds the identifier exactly when there is one. *)
Theorem truthiness_test_keeps_identifiers (shipments : gset str) (filename : str) :
  (truthy (extract_shipment_from_filename filename) = true <->
   is_Some (extract_shipment_from_filename filename)) /\
  add_if shipments (extract_shipment_from_filename filename) =
  match extract_shipment_from_filename filename with
  | Some ship => shipments ∪ {[ ship ]}
  | None => shipments
  end.
Proof.
  split; [|apply add_if_extract].
  rewrite extract_truthy. apply bool_decide_eq_true.
Qed.

End Coverage.

(** * Witnesses of the further properties *)

Section CoverageExamples.

#[local] Existing Instance ascii_database.

(** X1, witness: a directory named like a shipment does not count. *)
Lemma extract_ignores_directories_witness :
  extract_shipment_from_filename (lit "12345678_done" ++ posixpath.sep :: lit "bad.pdf") =
  extract_shipment_from_filename (lit "bad.pdf").
Proof.
  apply (extract_ignores_directories (lit "12345678_done") (lit "bad.pdf")).
  apply (bool_decide_unpack _). vm_compute. exact I.
Defined.

(** X2, witness. *)
Lemma filename_identifier_is_clean_witness :
  clean_excel_shipment (pd.Str (lit "12345678")) = Some (lit "12345678").
Proof.
  apply (filename_identifier_is_clean (lit "12345678_invoice.pdf") (lit "12345678")).
  reflexivity.
Defined.

(** X3, witness. *)
Lemma clean_excel_shipment_idempotent_witness :
  clean_excel_shipment (pd.Str (lit "12345678")) = Some (lit "12345678").
Proof.
  apply (clean_excel_shipment_idempotent (pd.Str (lit "1234-5678")) (lit "12345678")).
  reflexivity.
Defined.

(** X4, witness: an upload pandas cannot read. *)
Lemma unreadable_excel_aborts_witness :
  run_check (plain_file "broken.xlsx") (Some demo_files) None true =
  ([st.Error (lit "Failed to read Excel: " ++ lit "Unsupported format, or corrupt file")],
   st.Stopped).
Proof.
  apply (unreadable_excel_aborts (plain_file "broken.xlsx")). reflexivity.
Defined.

(** X5, witness: a good workbook, files, and an archive that does not open. *)
Lemma unreadable_zip_aborts_witness :
  run_check demo_excel (Some demo_files) (Some (plain_file "broken.zip")) true =
  ([st.Error (lit "Failed to read ZIP: " ++ lit "File is not a zip file")], st.Stopped).
Proof.
  apply (unreadable_zip_aborts demo_excel (Some demo_files) (plain_file "broken.zip") true
           [] demo_valid demo_invalid).
  - vm_compute. reflexivity.
  - discriminate.
  - reflexivity.
Defined.

(** X8, witness: [repeats_frame] gives the rows 0, 1 and 4, in that order:
    the identifiers are not in ascending order, and the rows 2 and 5, which
    repeat them, are dropped. *)
Lemma expected_first_seen_witness :
  read_excel_shipment_column (workbook "a.xlsx" repeats_frame) =
    ([], st.Returned (repeats_valid, repeats_invalid)) /\
  exists df col,
    read_workbook (workbook "a.xlsx" repeats_frame) = inr df /\
    pd.getitem df SHIPMENT_NO = Some col /\
    repeats_valid `sublist_of`
      omap (fun r => match clean_excel_shipment (snd r) with
                     | Some d => Some (fst r, d)
                     | None => None
                     end)
           (pd.to_series df col) /\
    NoDup (pd.values repeats_valid) /\
    forall i d,
      (i, d) ∈ repeats_valid <->
      exists rows1 cell rows2,
        pd.to_series df col = rows1 ++ (i, cell) :: rows2 /\
        clean_excel_shipment cell = Some d /\
        Forall (fun r => clean_excel_shipment (snd r) <> Some d) rows1.
Proof.
  assert (Hr : read_excel_shipment_column (workbook "a.xlsx" repeats_frame) =
               ([], st.Returned (repeats_valid, repeats_invalid)))
    by (vm_compute; reflexivity).
  split; [exact Hr|].
  exact (expected_first_seen (workbook "a.xlsx" repeats_frame) []
           repeats_valid repeats_invalid Hr).
Defined.

(** X9, witness: the four rows of [demo_frame]. *)
Lemma reader_keeps_every_row_witness :
  exists col valid invalid,
    pd.getitem demo_frame SHIPMENT_NO = Some col /\
    read_excel_shipment_column demo_excel = ([], st.Returned (valid, invalid)) /\
    (length (pd.index invalid) +
     length (pd.dropna (pd.map clean_excel_shipment (pd.to_series demo_frame col))))%nat =
    length (pd.to_series demo_frame col).
Proof.
  apply (reader_keeps_every_row demo_excel demo_frame).
  - reflexivity.
  - apply (bool_decide_unpack _). vm_compute. exact I.
Defined.

(** X11, witness. *)
Lemma more_observed_fewer_missing_witness :
  exists missing missing' c c',
    missing_df two_expected {[ lit "22222222" ]} = ([], st.Returned missing) /\
    missing_df two_expected {[ lit "22222222"; lit "11111111" ]} =
      ([], st.Returned missing') /\
    pd.getitem missing SHIPMENT_NO = Some (pd.ObjectCol c) /\
    pd.getitem missing' SHIPMENT_NO = Some (pd.ObjectCol c') /\
    c' `sublist_of` c.
Proof.
  apply (more_observed_fewer_missing two_expected
           {[ lit "22222222" ]} {[ lit "22222222"; lit "11111111" ]}).
  apply union_subseteq_l.
Defined.

(** X14, witness: the run on [demo_excel] and the archive. *)
Lemma missing_export_content_witness :
  exists valid invalid observed,
    read_excel_shipment_column demo_excel = ([], st.Returned (valid, invalid)) /\
    read_processed_files None (Some (archive "processed.zip" demo_infos)) =
      ([], st.Returned observed) /\
    st.DownloadButton
      (DOWN_ARROW ++ lit " Download Missing Shipments (Excel)")
      [ {| pd.sheet_name := lit "Missing";
           pd.table :=
             [ (lit "Shipment No.",
                pd.ObjectCol
                  (List.map pd.Str
                     (filter (fun x => x ∉ observed) (pd.values valid)))) ] |} ]
      (lit "missing_shipments.xlsx") XLSX_MIME
      ∈ st.elements (run_check demo_excel None (Some (archive "processed.zip" demo_infos)) false).
Proof.
  apply (missing_export_content demo_excel None
           (Some (archive "processed.zip" demo_infos)) false).
  vm_compute. reflexivity.
Defined.

(** X15, witness: a workbook and three files in the multi-file mode. *)
Lemma enabled_run_has_inputs_witness :
  (exists f, Some demo_excel = Some f) /\
  exists f files,
    Some demo_files = Some (f :: files) /\
    read_processed_files
      (fst (uploads Upload_multiple_files (Some demo_files) None))
      (snd (uploads Upload_multiple_files (Some demo_files) None)) =
    ([], st.Returned (extract_from_uploaded_files (f :: files))).
Proof.
  apply (enabled_run_has_inputs (Some demo_excel) Upload_multiple_files
           (Some demo_files) None).
  reflexivity.
Defined.

(** X17, witness: the archive of the specification's scenario. *)
Lemma archive_members_witness :
  exists shipments,
    extract_from_zip (archive "processed.zip" demo_infos) = ([], st.Returned shipments) /\
    forall ship,
      ship ∈ shipments <->
      exists info,
        info ∈ demo_infos /\ is_dir info = false /\
        extract_shipment_from_filename (filename info) = Some ship.
Proof.
  apply (archive_members (archive "processed.zip" demo_infos) demo_infos). reflexivity.
Defined.

(** X18, witness: the same names in another order, one twice. *)
Lemma same_names_same_set_witness :
  extract_from_uploaded_files demo_files = extract_from_uploaded_files shuffled_files.
Proof.
  apply (same_names_same_set demo_files shuffled_files).
  intros n.
  assert (List.map name demo_files =
          [lit "bad.pdf"; lit "20000000_b.pdf"; lit "10000000_a.pdf"]) as -> by reflexivity.
  assert (List.map name shuffled_files =
          [lit "10000000_a.pdf"; lit "bad.pdf"; lit "20000000_b.pdf"; lit "bad.pdf"])
    as -> by reflexivity.
  rewrite !elem_of_cons, !elem_of_nil. tauto.
Defined.

(** X19, witness: two cells of [demo_frame] clean to one identifier. *)
Lemma excel_metric_counts_distinct_witness :
  exists df col,
    read_workbook demo_excel = inr df /\
    pd.getitem df SHIPMENT_NO = Some col /\
    length demo_valid =
    size (list_to_set (omap clean_excel_shipment (pd.values (pd.to_series df col)))
          : gset str).
Proof.
  apply (excel_metric_counts_distinct demo_excel [] demo_valid demo_invalid).
  vm_compute. reflexivity.
Defined.

End CoverageExamples.
